(** * logsreceiver: an HTTP polling receiver for OpenTelemetry logs

    A shallow embedding of the receiver (package [logsreceiver]): the
    configuration validation, the request builder, the format parser with its
    JSON-to-pdata converter, the dot-path extractor, the severity mapper and
    the poll of one target, followed by the properties of these functions.

    Go maps are [gmap]s, Go slices are lists, [interface{}] values decoded by
    [encoding/json] are the inductive [JSON], whose [JNull] is Go's [nil]. *)

From Stdlib Require Import SpecFloat ZArith Ascii String.
From stdpp Require Import gmap strings list fin_maps.

Set Warnings "-register-all".
Local Open Scope string_scope.
Local Open Scope list_scope.

(** ** The functions of Go's [strings] package that the receiver calls

    Go strings are byte strings, as Rocq's are. [Split], [SplitN], [HasPrefix]
    and [Contains] work on bytes and are defined here. [ToLower], [ToUpper]
    and [TrimSpace] depend on the tables of Unicode and are operations of the
    interface [Library] below; [ToLowerASCII], [ToUpperASCII] and
    [TrimSpaceASCII] are what they do on a string of bytes below 0x80. *)
Module strings.

Definition isUpperByte (c : ascii) : bool :=
  let n := N_of_ascii c in ((65 <=? n) && (n <=? 90))%N.

Definition isLowerByte (c : ascii) : bool :=
  let n := N_of_ascii c in ((97 <=? n) && (n <=? 122))%N.

Definition lowerByte (c : ascii) : ascii :=
  if isUpperByte c then ascii_of_N (N_of_ascii c + 32) else c.

Definition upperByte (c : ascii) : ascii :=
  if isLowerByte c then ascii_of_N (N_of_ascii c - 32) else c.

Fixpoint mapBytes (f : ascii -> ascii) (s : string) : string :=
  match s with
  | EmptyString => EmptyString
  | String c s' => String (f c) (mapBytes f s')
  end.

Definition ToLowerASCII : string -> string := mapBytes lowerByte.
Definition ToUpperASCII : string -> string := mapBytes upperByte.

(** '\t', '\n', '\v', '\f', '\r' and ' '. *)
Definition isSpaceByte (c : ascii) : bool :=
  let n := N_of_ascii c in (((9 <=? n) && (n <=? 13)) || (n =? 32))%N.

Fixpoint trimLeft (s : string) : string :=
  match s with
  | EmptyString => EmptyString
  | String c s' => if isSpaceByte c then trimLeft s' else s
  end.

Fixpoint trimRight (s : string) : string :=
  match s with
  | EmptyString => EmptyString
  | String c s' =>
      match trimRight s' with
      | EmptyString => if isSpaceByte c then EmptyString else String c EmptyString
      | r => String c r
      end
  end.

Definition TrimSpaceASCII (s : string) : string := trimRight (trimLeft s).

(** [Cut sep s]: the text before and after the first byte [sep] of [s]. *)
Fixpoint Cut (sep : ascii) (s : string) : option (string * string) :=
  match s with
  | EmptyString => None
  | String c s' =>
      if Ascii.eqb c sep then Some (EmptyString, s')
      else match Cut sep s' with
           | Some (before, after) => Some (String c before, after)
           | None => None
           end
  end.

(** [strings.SplitN(s, sep, 2)] for a one-byte separator. *)
Definition SplitN2 (sep : ascii) (s : string) : list string :=
  match Cut sep s with
  | Some (before, after) => [before; after]
  | None => [s]
  end.

(** [strings.Split(s, sep)] for a one-byte separator. *)
Fixpoint Split (sep : ascii) (s : string) : list string :=
  match s with
  | EmptyString => [EmptyString]
  | String c s' =>
      if Ascii.eqb c sep then EmptyString :: Split sep s'
      else match Split sep s' with
           | line :: rest => String c line :: rest
           | [] => [String c EmptyString]
           end
  end.

Definition HasPrefix (s prefix : string) : bool := String.prefix prefix s.

Fixpoint Contains (s substr : string) : bool :=
  String.prefix substr s
  || match s with
     | EmptyString => false
     | String _ s' => Contains s' substr
     end.

End strings.

(** A string of bytes below 0x80. *)
Fixpoint isASCII (s : string) : bool :=
  match s with
  | EmptyString => true
  | String c s' => (N_of_ascii c <? 128)%N && isASCII s'
  end.

(** ** Decoded JSON

    [json.Unmarshal] into an [interface{}] yields [nil], [bool], [float64],
    [string], [[]interface{}] or [map[string]interface{}]. A [float64] is a
    [spec_float], the values of IEEE 754. *)
Inductive JSON : Type :=
  | JNull
  | JBool (b : bool)
  | JNum (f : spec_float)
  | JStr (s : string)
  | JArr (elems : list JSON)
  | JObj (fields : gmap string JSON).

Definition isNil (v : JSON) : bool :=
  match v with JNull => true | _ => false end.

(** ** [pcommon.Value], the structured body of a log record *)
Inductive Value : Type :=
  | VEmpty
  | VStr (s : string)
  | VDouble (f : spec_float)
  | VBool (b : bool)
  | VSlice (elems : list Value)
  | VMap (fields : gmap string Value).

(** ** Errors

    [errExternal] is an error returned by a library ([net/http], [net/url],
    [io], [encoding/json]) or by the consumer; [errWrap msg e] is
    [fmt.Errorf(msg + ": %w", e)]. *)
Inductive error : Type :=
  | errExternal (msg : string)
  | errNoTargets
  | errMissingEndpoint
  | errInvalidEndpoint (parseErr : error)
  | errHTTP (code : Z) (status : string)
  | errWrap (msg : string) (e : error).

Inductive result (A : Type) : Type :=
  | Ok (a : A)
  | Err (e : error).
Arguments Ok {A} a.
Arguments Err {A} e.

(** ** [net/textproto] and [net/http]: headers, requests, responses *)
Module textproto.

(** The token bytes of RFC 7230. *)
Definition validHeaderFieldByte (c : ascii) : bool :=
  let n := N_of_ascii c in
  (((48 <=? n) && (n <=? 57)) || ((97 <=? n) && (n <=? 122))
   || ((65 <=? n) && (n <=? 90))
   || (n =? 33) || (n =? 35) || (n =? 36) || (n =? 37) || (n =? 38)
   || (n =? 39) || (n =? 42) || (n =? 43) || (n =? 45) || (n =? 46)
   || (n =? 94) || (n =? 95) || (n =? 96) || (n =? 124) || (n =? 126))%N.

Fixpoint validHeaderField (s : string) : bool :=
  match s with
  | EmptyString => true
  | String c s' => validHeaderFieldByte c && validHeaderField s'
  end.

(** Upper case for the first letter and after each dash, lower case
    elsewhere. *)
Fixpoint canonicalBytes (upper : bool) (s : string) : string :=
  match s with
  | EmptyString => EmptyString
  | String c s' =>
      let c' := if upper then strings.upperByte c else strings.lowerByte c in
      String c' (canonicalBytes (Ascii.eqb c' "-") s')
  end.

Definition CanonicalMIMEHeaderKey (s : string) : string :=
  if validHeaderField s then canonicalBytes true s else s.

End textproto.

Module http.

(** [http.Header] is [map[string][]string]. *)
Definition HeaderSet (key value : string) (h : gmap string (list string))
  : gmap string (list string) :=
  <[textproto.CanonicalMIMEHeaderKey key := [value]]> h.

Definition HeaderGet (h : gmap string (list string)) (key : string) : string :=
  match h !! textproto.CanonicalMIMEHeaderKey key with
  | Some (v :: _) => v
  | _ => ""
  end.

(** [ReqBody] is [None] when the request has no body reader. *)
Record Request : Type := {
  ReqMethod : string;
  ReqURL : string;
  ReqBody : option string;
  ReqHeader : gmap string (list string)
}.

(** [RespBody] is the outcome of [io.ReadAll(resp.Body)]. *)
Record Response : Type := {
  StatusCode : Z;
  Status : string;
  Header : gmap string (list string);
  RespBody : result string
}.

End http.

(** ** [plog]: log records and their grouping

    The capture timestamp of a record is the wall-clock time of the call and
    is not part of the model. *)
Module plog.

Inductive SeverityNumber : Type :=
  | SeverityNumberTrace
  | SeverityNumberDebug
  | SeverityNumberInfo
  | SeverityNumberWarn
  | SeverityNumberError
  | SeverityNumberFatal.

Record LogRecord : Type := {
  SeverityText : string;
  Severity : SeverityNumber;
  Attributes : gmap string Value;
  Body : Value
}.

Record ScopeLogs : Type := { LogRecords : list LogRecord }.

Record ResourceLogs : Type := {
  ResourceAttributes : gmap string Value;
  ScopeLogsSlice : list ScopeLogs
}.

Record Logs : Type := { ResourceLogsSlice : list ResourceLogs }.

Definition NewLogs : Logs := {| ResourceLogsSlice := [] |}.

Definition allRecords (ld : Logs) : list LogRecord :=
  rl ← ResourceLogsSlice ld; sl ← ScopeLogsSlice rl; LogRecords sl.

Definition LogRecordCount (ld : Logs) : nat := length (allRecords ld).

End plog.

(** ** The libraries and the consumer, as an interface

    The receiver calls [encoding/json], [fmt], [net/url], [net/http] and the
    downstream [consumer.Logs]; a Go [range] over a map visits its entries in
    an order the language leaves open, so the order is a field too. *)
Class Library : Type := {
  (** [strings.ToLower], [strings.ToUpper] and [strings.TrimSpace]; on a
      string of ASCII bytes they map the ASCII letters and trim the ASCII
      white space *)
  strings_ToLower : string -> string;
  strings_ToUpper : string -> string;
  strings_TrimSpace : string -> string;
  strings_ToLower_ascii :
    forall s, isASCII s = true -> strings_ToLower s = strings.ToLowerASCII s;
  strings_ToUpper_ascii :
    forall s, isASCII s = true -> strings_ToUpper s = strings.ToUpperASCII s;
  strings_TrimSpace_ascii :
    forall s, isASCII s = true -> strings_TrimSpace s = strings.TrimSpaceASCII s;
  (** [json.Unmarshal(body, &v)] *)
  json_Unmarshal : string -> result JSON;
  (** [fmt.Sprintf("%v", v)] *)
  fmt_Sprint : JSON -> string;
  (** [url.ParseRequestURI], [None] for a nil error *)
  url_ParseRequestURI : string -> option error;
  (** the error of [http.NewRequestWithContext(ctx, method, url, _)], [None]
      for nil *)
  http_NewRequestError : string -> string -> option error;
  (** [client.Do(req)] *)
  http_Do : http.Request -> result http.Response;
  (** [consumer.ConsumeLogs(ctx, logs)], [None] for a nil error *)
  consumer_ConsumeLogs : plog.Logs -> option error;
  (** the order in which [range] visits a [map[string]string] *)
  rangeMap : gmap string string -> list (string * string);
  rangeMap_perm : forall m, rangeMap m ≡ₚ map_to_list m
}.

(** ** Configuration *)
Record targetConfig : Type := {
  Endpoint : string;
  Method : string;
  Body : string;
  Headers : gmap string string;
  ServiceName : string;
  LogLevel : string;
  Labels : gmap string string
}.

(** [CollectionInterval] is a [time.Duration], in nanoseconds. *)
Record Config : Type := {
  CollectionInterval : Z;
  Targets : list targetConfig
}.

Definition Second : Z := 1000000000.

Section Validate.
Context `{Library}.

(** [(cfg *targetConfig) Validate]: the error and the target as the call
    leaves it. *)
Definition targetConfig_Validate (cfg : targetConfig)
  : option error * targetConfig :=
  if String.eqb (Endpoint cfg) "" then (Some errMissingEndpoint, cfg)
  else
    match url_ParseRequestURI (Endpoint cfg) with
    | Some parseErr => (Some (errInvalidEndpoint parseErr), cfg)
    | None =>
        (None,
         {| Endpoint := Endpoint cfg;
            Method := if String.eqb (Method cfg) "" then "GET" else Method cfg;
            Body := Body cfg;
            Headers := Headers cfg;
            ServiceName := if String.eqb (ServiceName cfg) ""
                           then "logs-receiver" else ServiceName cfg;
            LogLevel := if String.eqb (LogLevel cfg) ""
                        then "info" else LogLevel cfg;
            Labels := Labels cfg |})
    end.

(** The loop of [(cfg *Config) Validate] over the targets: it stops at the
    first error; the targets before it have their defaults filled in. *)
Fixpoint validateTargets (targets : list targetConfig)
  : option error * list targetConfig :=
  match targets with
  | [] => (None, [])
  | target :: rest =>
      match targetConfig_Validate target with
      | (Some err, target') => (Some err, target' :: rest)
      | (None, target') =>
          let (err, rest') := validateTargets rest in (err, target' :: rest')
      end
  end.

Definition Config_Validate (cfg : Config) : option error * Config :=
  if (length (Targets cfg) =? 0)%nat then (Some errNoTargets, cfg)
  else
    let interval :=
      if (CollectionInterval cfg <=? 0)%Z then (30 * Second)%Z
      else CollectionInterval cfg in
    let (err, targets) := validateTargets (Targets cfg) in
    (err, {| CollectionInterval := interval; Targets := targets |}).

End Validate.

(** [createDefaultConfig] of the factory. *)
Definition createDefaultConfig : Config :=
  {| CollectionInterval := 30 * Second; Targets := [] |}.

Module Receiver.

(** [setBodyValue] fills a [pcommon.Value] from a decoded JSON value. The
    [default] case of the source's type switch is not reachable from a
    decoded value. *)
Fixpoint setBodyValue (v : JSON) : Value :=
  match v with
  | JObj val => VMap (setBodyValue <$> val)
  | JArr val => VSlice (map setBodyValue val)
  | JStr val => VStr val
  | JNum val => VDouble val
  | JBool val => VBool val
  | JNull => VStr "null"
  end.

(** [head] and [tail] of [strings.SplitN(path, ".", 2)]. *)
Definition pathHead (path : string) : string :=
  match strings.SplitN2 "." path with
  | head :: _ => head
  | [] => ""
  end.

Definition pathTail (path : string) : string :=
  match strings.SplitN2 "." path with
  | [_; tail] => tail
  | _ => ""
  end.

(** One turn of the loop over the elements of a sequence: [v] is the result
    for the element, [results] the aggregate so far. *)
Definition appendResult (results : list JSON) (v : JSON) : list JSON :=
  match v with
  | JNull => results
  | JArr vv => results ++ vv
  | _ => results ++ [v]
  end.

(** [extractValueByPath]. The recursion is structural in [raw]; in the
    mapping case the recursive call on [node[head]] is written as a lookup
    in the mapping of the recursive results, which is the same value
    (lemma [extractValueByPath_eq] gives the source's shape). *)
Fixpoint extractValueByPath (path : string) (raw : JSON) {struct raw} : JSON :=
  if isNil raw || String.eqb path "" then JNull
  else
    let head := pathHead path in
    let tail := pathTail path in
    match raw with
    | JObj node =>
        if String.eqb tail "" then
          match node !! head with
          | Some child => child
          | None => JNull
          end
        else
          match (extractValueByPath tail <$> node) !! head with
          | Some r => r
          | None => JNull
          end
    | JArr node =>
        let results :=
          (fix loop (els : list JSON) (results : list JSON) : list JSON :=
             match els with
             | [] => results
             | el :: els' =>
                 loop els' (appendResult results (extractValueByPath path el))
             end) node [] in
        if (length results =? 0)%nat then JNull else JArr results
    | _ => JNull
    end.

(** The loop of the sequence case, named. *)
Fixpoint extractLoop (path : string) (els : list JSON) (results : list JSON)
  : list JSON :=
  match els with
  | [] => results
  | el :: els' =>
      extractLoop path els' (appendResult results (extractValueByPath path el))
  end.

(** What the specification says of a sequence node: the per-element results
    that are not null, a result that is a sequence spliced in. *)
Definition splice (v : JSON) : list JSON :=
  match v with
  | JNull => []
  | JArr vv => vv
  | _ => [v]
  end.

Definition aggregate (path : string) (els : list JSON) : list JSON :=
  concat (map (fun el => splice (extractValueByPath path el)) els).

Section WithLibrary.
Context `{Library}.

(** [getSeverityNumber] *)
Definition getSeverityNumber (level : string) : plog.SeverityNumber :=
  let l := strings_ToLower level in
  if String.eqb l "trace" then plog.SeverityNumberTrace
  else if String.eqb l "debug" then plog.SeverityNumberDebug
  else if String.eqb l "info" then plog.SeverityNumberInfo
  else if String.eqb l "warn" || String.eqb l "warning"
       then plog.SeverityNumberWarn
  else if String.eqb l "error" then plog.SeverityNumberError
  else if String.eqb l "fatal" then plog.SeverityNumberFatal
  else plog.SeverityNumberInfo.

(** The loop of [createRequest] that copies the target's headers into the
    header of the new request, which starts empty. *)
Definition setHeaders (target : targetConfig) : gmap string (list string) :=
  foldl (fun h kv => http.HeaderSet kv.1 kv.2 h) ∅ (rangeMap (Headers target)).

(** [createRequest]. [http.NewRequestWithContext] gives the request the
    method "GET" when the method is empty, and an empty header. *)
Definition createRequest (target : targetConfig) : result http.Request :=
  let body :=
    if negb (String.eqb (Body target) "") then Some (Body target) else None in
  match http_NewRequestError (Method target) (Endpoint target) with
  | Some err => Err err
  | None =>
      let header := setHeaders target in
      let header :=
        if negb (String.eqb (Body target) "")
           && String.eqb (http.HeaderGet header "Content-Type") ""
        then
          if strings.HasPrefix (strings_TrimSpace (Body target)) "{"
          then http.HeaderSet "Content-Type" "application/json" header
          else http.HeaderSet "Content-Type" "text/plain" header
        else header in
      Ok {| http.ReqMethod :=
              if String.eqb (Method target) "" then "GET" else Method target;
            http.ReqURL := Endpoint target;
            http.ReqBody := body;
            http.ReqHeader := header |}
  end.

(** The attribute that [addLogRecord] puts for one label. *)
Definition labelAttribute (labelVal : string) (data : JSON) : Value :=
  let val := extractValueByPath labelVal data in
  if negb (isNil val) then VStr (fmt_Sprint val) else VStr "NOT FOUND".

(** [addLogRecord] appends one record to [scopeLogs]. *)
Definition addLogRecord (scopeLogs : plog.ScopeLogs) (data : JSON)
  (target : targetConfig) : plog.ScopeLogs :=
  let attributes :=
    foldl (fun attrs kv => <[kv.1 := labelAttribute kv.2 data]> attrs) ∅
          (rangeMap (Labels target)) in
  let logRecord :=
    {| plog.SeverityText := strings_ToUpper (LogLevel target);
       plog.Severity := getSeverityNumber (LogLevel target);
       plog.Attributes := attributes;
       plog.Body := setBodyValue data |} in
  {| plog.LogRecords := plog.LogRecords scopeLogs ++ [logRecord] |}.

(** [parseJSONLogs] *)
Definition parseJSONLogs (body : string) (target : targetConfig)
  (logs : plog.Logs) : result plog.Logs :=
  match json_Unmarshal body with
  | Err err => Err (errWrap "failed to unmarshal JSON" err)
  | Ok jsonData =>
      let attributes : gmap string Value :=
        <["service.name" := VStr (ServiceName target)]>
          (<["endpoint" := VStr (Endpoint target)]> ∅) in
      let scopeLogs :=
        addLogRecord {| plog.LogRecords := [] |} jsonData target in
      Ok {| plog.ResourceLogsSlice :=
              plog.ResourceLogsSlice logs
              ++ [ {| plog.ResourceAttributes := attributes;
                      plog.ScopeLogsSlice := [scopeLogs] |} ] |}
  end.

(** The record that [parseTextLogs] appends for a line. *)
Definition textRecord (target : targetConfig) (line : string) : plog.LogRecord :=
  {| plog.SeverityText := strings_ToUpper (LogLevel target);
     plog.Severity := getSeverityNumber (LogLevel target);
     plog.Attributes := ∅;
     plog.Body := VStr line |}.

(** The loop of [parseTextLogs] over the lines. *)
Fixpoint textRecords (target : targetConfig) (lines : list string)
  (records : list plog.LogRecord) : list plog.LogRecord :=
  match lines with
  | [] => records
  | line :: lines' =>
      let line := strings_TrimSpace line in
      if String.eqb line "" then textRecords target lines' records
      else textRecords target lines' (records ++ [textRecord target line])
  end.

(** [parseTextLogs]; "\n" is the byte 10. *)
Definition parseTextLogs (body : string) (target : targetConfig)
  (logs : plog.Logs) : result plog.Logs :=
  let attributes : gmap string Value :=
    <["endpoint" := VStr (Endpoint target)]>
      (<["service.name" := VStr (ServiceName target)]> ∅) in
  let attributes :=
    foldl (fun attrs kv => <[kv.1 := VStr kv.2]> attrs) attributes
          (rangeMap (Labels target)) in
  let lines := strings.Split (ascii_of_nat 10) body in
  let scopeLogs := {| plog.LogRecords := textRecords target lines [] |} in
  Ok {| plog.ResourceLogsSlice :=
          plog.ResourceLogsSlice logs
          ++ [ {| plog.ResourceAttributes := attributes;
                  plog.ScopeLogsSlice := [scopeLogs] |} ] |}.

(** [parseLogs] *)
Definition parseLogs (resp : http.Response) (body : string)
  (target : targetConfig) : result plog.Logs :=
  let logs := plog.NewLogs in
  let ct := strings_ToLower (http.HeaderGet (http.Header resp) "Content-Type") in
  if strings.Contains ct "application/json" then parseJSONLogs body target logs
  else if strings.Contains ct "text" then parseTextLogs body target logs
  else parseTextLogs body target logs.

(** [pollTarget]: the error it returns ([None] for nil) and the batches it
    hands to the consumer, in order. *)
Definition pollTarget (target : targetConfig)
  : option error * list plog.Logs :=
  match createRequest target with
  | Err err => (Some (errWrap "failed to create request" err), [])
  | Ok req =>
      match http_Do req with
      | Err err => (Some (errWrap "failed to execute request" err), [])
      | Ok resp =>
          if (400 <=? http.StatusCode resp)%Z
          then (Some (errHTTP (http.StatusCode resp) (http.Status resp)), [])
          else
            match http.RespBody resp with
            | Err err =>
                (Some (errWrap "failed to read response body" err), [])
            | Ok body =>
                match parseLogs resp body target with
                | Err err => (Some (errWrap "failed to parse logs" err), [])
                | Ok logs =>
                    if (0 <? plog.LogRecordCount logs)%nat then
                      match consumer_ConsumeLogs logs with
                      | Some err =>
                          (Some (errWrap "failed to consume logs" err), [logs])
                      | None => (None, [logs])
                      end
                    else (None, [])
                end
            end
      end
  end.

End WithLibrary.

End Receiver.

(** ** Positions in a value tree, for the statements

    A position is a list of steps from the root: into the field of a mapping
    or to an index of a sequence. *)
Inductive step : Type :=
  | Field (key : string)
  | Index (i : nat).

Fixpoint select (pos : list step) (v : JSON) : option JSON :=
  match pos with
  | [] => Some v
  | Field key :: pos' =>
      match v with
      | JObj fields => fields !! key ≫= select pos'
      | _ => None
      end
  | Index i :: pos' =>
      match v with
      | JArr elems => elems !! i ≫= select pos'
      | _ => None
      end
  end.

Fixpoint selectValue (pos : list step) (v : Value) : option Value :=
  match pos with
  | [] => Some v
  | Field key :: pos' =>
      match v with
      | VMap fields => fields !! key ≫= selectValue pos'
      | _ => None
      end
  | Index i :: pos' =>
      match v with
      | VSlice elems => elems !! i ≫= selectValue pos'
      | _ => None
      end
  end.

(** A segment of a dot-path: not empty and without a dot. *)
Definition isSegment (key : string) : bool :=
  negb (String.eqb key "")
  && match strings.Cut "." key with None => true | Some _ => false end.

(** The dot-path of a list of segments. *)
Definition dotPath (keys : list string) : string := String.concat "." keys.

(** ** What the specification says of validation *)

(** A target that validation rejects. *)
Definition rejected `{Library} (target : targetConfig) : bool :=
  String.eqb (Endpoint target) ""
  || match url_ParseRequestURI (Endpoint target) with
     | Some _ => true
     | None => false
     end.

(** A target with the defaults of the specification filled in. *)
Definition withDefaults (target : targetConfig) : targetConfig :=
  {| Endpoint := Endpoint target;
     Method := if decide (Method target = "") then "GET" else Method target;
     Body := Body target;
     Headers := Headers target;
     ServiceName := if decide (ServiceName target = "")
                    then "logs-receiver" else ServiceName target;
     LogLevel := if decide (LogLevel target = "") then "info" else LogLevel target;
     Labels := Labels target |}.

(** ** A stand-in for the libraries, to run the receiver on concrete inputs

    [%v] of a string, a boolean, nil and a sequence as [fmt] prints them;
    numbers and mappings are not rendered. The functions of [strings] are the
    ASCII ones. The decoder, the URL parser and the HTTP round trip are given
    by the caller; the consumer accepts. *)
Fixpoint exampleSprint (v : JSON) : string :=
  match v with
  | JNull => "<nil>"
  | JBool true => "true"
  | JBool false => "false"
  | JStr s => s
  | JArr elems => "[" +:+ String.concat " " (map exampleSprint elems) +:+ "]"
  | JNum _ => "<number>"
  | JObj _ => "<map>"
  end.

Definition exampleLibrary (decode : string -> result JSON)
  (parseURI : string -> option error)
  (roundTrip : http.Request -> result http.Response) : Library :=
  {| strings_ToLower := strings.ToLowerASCII;
     strings_ToUpper := strings.ToUpperASCII;
     strings_TrimSpace := strings.TrimSpaceASCII;
     strings_ToLower_ascii := fun _ _ => eq_refl;
     strings_ToUpper_ascii := fun _ _ => eq_refl;
     strings_TrimSpace_ascii := fun _ _ => eq_refl;
     json_Unmarshal := decode;
     fmt_Sprint := exampleSprint;
     url_ParseRequestURI := parseURI;
     http_NewRequestError := fun _ _ => None;
     http_Do := roundTrip;
     consumer_ConsumeLogs := fun _ => None;
     rangeMap := map_to_list;
     rangeMap_perm := fun m => Permutation_refl (map_to_list m) |}.

Definition newline : string := String (ascii_of_nat 10) "".

Definition exampleTarget : targetConfig :=
  {| Endpoint := "http://example.com/logs";
     Method := "GET";
     Body := "";
     Headers := ∅;
     ServiceName := "";
     LogLevel := "info";
     Labels := {[ "companies" := "company.name";
                  "missing_field" := "does.not.exist" ]} |}.

Definition companyNamed (name : string) : JSON :=
  JObj {[ "company" := JObj {[ "name" := JStr name ]} ]}.

Definition exampleUsers : JSON := JArr [companyNamed "A"; companyNamed "B"].

(** The scheme of a URI: a letter, then letters, digits, "+", "-" and ".",
    up to the first colon. *)
Definition isSchemeByte (c : ascii) : bool :=
  let n := N_of_ascii c in
  strings.isLowerByte c || strings.isUpperByte c
  || ((48 <=? n) && (n <=? 57))%N || (n =? 43)%N || (n =? 45)%N || (n =? 46)%N.

Fixpoint allBytes (p : ascii -> bool) (s : string) : bool :=
  match s with
  | EmptyString => true
  | String c s' => p c && allBytes p s'
  end.

Definition hasScheme (rawURL : string) : bool :=
  match strings.Cut ":" rawURL with
  | Some (String c scheme, _) =>
      (strings.isLowerByte c || strings.isUpperByte c)
      && allBytes isSchemeByte scheme
  | _ => false
  end.

(** A stand-in for [url.ParseRequestURI], which Go documents as reading its
    argument "only as an absolute URI or an absolute path": the star, a text
    that starts with a slash and a text with a scheme are accepted; the
    syntax of the authority and of the escapes is not looked at. *)
Definition exampleParseURI (rawURL : string) : option error :=
  if String.eqb rawURL "" then Some (errExternal "empty url")
  else if String.eqb rawURL "*" then None
  else if strings.HasPrefix rawURL "/" then None
  else if hasScheme rawURL then None
  else Some (errExternal "invalid URI for request").

Definition jsonResponse (body : string) : http.Response :=
  {| http.StatusCode := 200;
     http.Status := "200 OK";
     http.Header := {[ "Content-Type" := ["application/json; charset=utf-8"] ]};
     http.RespBody := Ok body |}.

Definition textResponse (body : string) : http.Response :=
  {| http.StatusCode := 200;
     http.Status := "200 OK";
     http.Header := {[ "Content-Type" := ["text/plain"] ]};
     http.RespBody := Ok body |}.

Definition errorResponse : http.Response :=
  {| http.StatusCode := 500;
     http.Status := "500 Internal Server Error";
     http.Header := ∅;
     http.RespBody := Ok "" |}.

(** A library whose decoder yields [data] and whose server answers [resp]. *)
Definition libraryOf (data : JSON) (resp : http.Response) : Library :=
  exampleLibrary (fun _ => Ok data) exampleParseURI (fun _ => Ok resp).

Definition exampleNullUser : JSON :=
  JObj {[ "user" := JObj {[ "email" := JNull; "name" := JStr "Ann" ]} ]}.

Definition exampleNoEmailUser : JSON :=
  JObj {[ "user" := JObj {[ "name" := JStr "Ann" ]} ]}.

(** A library whose decoder yields the user without email for the body
    "no-email" and the user with the null email for any other body. *)
Definition userLibrary : Library :=
  exampleLibrary
    (fun body => if String.eqb body "no-email" then Ok exampleNoEmailUser
                 else Ok exampleNullUser)
    exampleParseURI (fun _ => Ok (jsonResponse "user")).

Definition emailTarget : targetConfig :=
  {| Endpoint := "http://example.com/user";
     Method := "GET";
     Body := "";
     Headers := ∅;
     ServiceName := "users";
     LogLevel := "debug";
     Labels := {[ "mail" := "user.email" ]} |}.

Definition exampleText : string :=
  "alpha" +:+ newline +:+ "beta" +:+ newline +:+ newline +:+ " gamma ".

(** ** What the specification says of a text body: the lines, trimmed, that
    are not empty. *)
Definition survivingLines `{Library} (body : string) : list string :=
  filter (fun line : string => line <> "")
         (strings_TrimSpace <$> strings.Split (ascii_of_nat 10) body).

Definition quote : string := String (ascii_of_nat 34) "".

(** The body [{"k":"v"}]. *)
Definition exampleJSONBody : string :=
  "{" +:+ quote +:+ "k" +:+ quote +:+ ":" +:+ quote +:+ "v" +:+ quote +:+ "}".

Definition postTarget (body : string) (headers : gmap string string)
  : targetConfig :=
  {| Endpoint := "http://example.com";
     Method := "POST";
     Body := body;
     Headers := headers;
     ServiceName := "";
     LogLevel := "";
     Labels := ∅ |}.

(** The content type that the specification infers from a body. *)
Definition inferredContentType `{Library} (body : string) : string :=
  if strings.HasPrefix (strings_TrimSpace body) "{"
  then "application/json" else "text/plain".

Definition bareTarget (endpoint : string) : targetConfig :=
  {| Endpoint := endpoint;
     Method := "";
     Body := "";
     Headers := ∅;
     ServiceName := "";
     LogLevel := "";
     Labels := ∅ |}.

Definition exampleConfig : Config :=
  {| CollectionInterval := 0;
     Targets := [bareTarget "https://api.example.com/logs"] |}.

(** A configuration whose only target has a path as endpoint. *)
Definition pathConfig : Config :=
  {| CollectionInterval := 10 * Second;
     Targets := [bareTarget "/logs"] |}.

(** A body of blank lines only. *)
Definition blankText : string := newline +:+ "  " +:+ newline.

(** The targets of the examples on validation: one that gives only its
    endpoint, one with every field set, one without endpoint. *)
Definition fullTarget : targetConfig :=
  {| Endpoint := "https://api.example.com/audit";
     Method := "POST";
     Body := "{}";
     Headers := {[ "Authorization" := "Basic YWRtaW46YWRtaW4=" ]};
     ServiceName := "audit";
     LogLevel := "debug";
     Labels := {[ "emails" := "action.email" ]} |}.

Definition brokenConfig : Config :=
  {| CollectionInterval := -5;
     Targets := [bareTarget "https://api.example.com/logs";
                 bareTarget "";
                 bareTarget "https://api.example.com/more"] |}.

Definition mixedConfig : Config :=
  {| CollectionInterval := 0;
     Targets := [bareTarget "https://api.example.com/logs"; fullTarget] |}.

(** The payloads of the examples on extraction. *)
Definition dottedKeyPayload : JSON :=
  JObj {[ "a.b" := JStr "dotted"; "c" := JObj {[ "d" := JStr "x" ]} ]}.

Definition nestedPayload : JSON :=
  JObj {[ "outer" :=
            JArr [ JObj {[ "inner" := JArr [ JObj {[ "value" := JStr "a" ]};
                                             JObj {[ "value" := JStr "b" ]} ] ]};
                   JObj {[ "inner" := JArr [ JObj {[ "value" := JStr "c" ]} ] ]} ] ]}.


(** A library whose decoder refuses every body. *)
Definition failingLibrary (resp : http.Response) : Library :=
  exampleLibrary (fun _ => Err (errExternal "unexpected end of JSON input"))
    exampleParseURI (fun _ => Ok resp).

(** A target with a label named "endpoint". *)
Definition labelledTarget : targetConfig :=
  {| Endpoint := "http://example.com/text";
     Method := "GET";
     Body := "";
     Headers := ∅;
     ServiceName := "text-service";
     LogLevel := "warn";
     Labels := {[ "env" := "prod"; "endpoint" := "override" ]} |}.

(** A response without headers. *)
Definition bareResponse (body : string) : http.Response :=
  {| http.StatusCode := 200;
     http.Status := "200 OK";
     http.Header := ∅;
     http.RespBody := Ok body |}.

(** * Properties *)

Import Receiver.

(** ** The dot-path extractor *)

Lemma extractValueByPath_nil_path (raw : JSON) :
  extractValueByPath "" raw = JNull.
Proof. destruct raw; reflexivity. Qed.

Lemma extractValueByPath_nil_node (path : string) :
  extractValueByPath path JNull = JNull.
Proof. reflexivity. Qed.

(** The source's shape of [extractValueByPath]. *)
Lemma extractValueByPath_eq (path : string) (raw : JSON) :
  extractValueByPath path raw =
  if isNil raw || String.eqb path "" then JNull
  else
    match raw with
    | JObj node =>
        match node !! pathHead path with
        | Some child =>
            if String.eqb (pathTail path) "" then child
            else extractValueByPath (pathTail path) child
        | None => JNull
        end
    | JArr node =>
        let results := extractLoop path node [] in
        if (length results =? 0)%nat then JNull else JArr results
    | _ => JNull
    end.
Proof.
  destruct raw as [| b | f | s | elems | fields]; try reflexivity.
  - simpl. destruct (String.eqb path ""); [reflexivity |].
    assert (Hloop : forall els acc,
      (fix loop (els : list JSON) (results : list JSON) : list JSON :=
         match els with
         | [] => results
         | el :: els' =>
             loop els' (appendResult results (extractValueByPath path el))
         end) els acc = extractLoop path els acc).
    { induction els as [| el els IH]; intros acc; [reflexivity |].
      simpl. apply IH. }
    rewrite Hloop. reflexivity.
  - simpl. destruct (String.eqb path ""); [reflexivity |].
    rewrite lookup_fmap.
    destruct (fields !! pathHead path) as [child |];
      destruct (String.eqb (pathTail path) ""); reflexivity.
Qed.

Lemma appendResult_splice (results : list JSON) (v : JSON) :
  appendResult results v = results ++ splice v.
Proof. destruct v; simpl; rewrite ?app_nil_r; reflexivity. Qed.

Lemma extractLoop_aggregate (path : string) (els results : list JSON) :
  extractLoop path els results = results ++ aggregate path els.
Proof.
  revert results. induction els as [| el els IH]; intros results.
  - unfold aggregate. simpl. rewrite app_nil_r. reflexivity.
  - simpl. rewrite IH, appendResult_splice.
    unfold aggregate. simpl. rewrite <- app_assoc. reflexivity.
Qed.

Lemma aggregate_nil_path (els : list JSON) : aggregate "" els = [].
Proof.
  unfold aggregate. induction els as [| el els IH]; [reflexivity |].
  simpl. rewrite extractValueByPath_nil_path, IH. reflexivity.
Qed.

(** C1: on a sequence node, [extractValueByPath] is the aggregate of the
    specification: the full path is extracted from every element, null
    results are left out, a result that is a sequence is spliced in one level,
    an empty aggregate gives null and any other aggregate is returned as a
    sequence, also when it has one member. Extracting "company.name" from the
    two companies named "A" and "B" gives the sequence of "A" and "B". *)
Theorem extractValueByPath_sequence :
  (forall (path : string) (els : list JSON),
     extractValueByPath path (JArr els) =
     match aggregate path els with
     | [] => JNull
     | r :: rs => JArr (r :: rs)
     end)
  /\ extractValueByPath "company.name" (JArr [companyNamed "A"; JObj ∅])
     = JArr [JStr "A"]
  /\ extractValueByPath "company.name" (JArr [companyNamed "A"; companyNamed "B"])
     = JArr [JStr "A"; JStr "B"].
Proof.
  split; [| split].
  - intros path els. rewrite extractValueByPath_eq. cbn [isNil orb].
    destruct (String.eqb_spec path "") as [-> | Hpath].
    + rewrite aggregate_nil_path. reflexivity.
    + cbv zeta. rewrite extractLoop_aggregate. cbn [app].
      destruct (aggregate path els); reflexivity.
  - vm_compute. reflexivity.
  - vm_compute. reflexivity.
Qed.

(** ** Loops over a Go map *)

Section RangeLoops.
Context {V : Type} (f : string -> V).

(** A loop that puts [f v] under every key of a list without repeated keys
    leaves, under a key of the list, the value of its entry, and the initial
    value under any other key. *)
Lemma foldl_put_lookup (l : list (string * string)) (init : gmap string V)
  (key : string) :
  NoDup l.*1 ->
  foldl (fun attrs kv => <[kv.1 := f kv.2]> attrs) init l !! key =
  match (list_to_map l : gmap string string) !! key with
  | Some v => Some (f v)
  | None => init !! key
  end.
Proof.
  revert init. induction l as [| [k v] l IH]; intros init Hnd.
  - reflexivity.
  - apply NoDup_cons in Hnd as [Hk Hnd]. cbn [foldl fst snd].
    rewrite IH by exact Hnd. cbn [list_to_map foldr fst snd uncurry].
    destruct (decide (k = key)) as [-> | Hne].
    + rewrite lookup_insert_eq.
      rewrite (not_elem_of_list_to_map_1 (M := gmap string)) by exact Hk.
      rewrite lookup_insert_eq. reflexivity.
    + rewrite !lookup_insert_ne by exact Hne. reflexivity.
Qed.

(** The same for a [range] over a map. *)
Lemma range_put_lookup `{Library} (m : gmap string string)
  (init : gmap string V) (key : string) :
  foldl (fun attrs kv => <[kv.1 := f kv.2]> attrs) init (rangeMap m) !! key =
  match m !! key with
  | Some v => Some (f v)
  | None => init !! key
  end.
Proof.
  pose proof (rangeMap_perm m) as Hperm.
  assert (Hnd : NoDup (rangeMap m).*1).
  { rewrite Hperm. apply NoDup_fst_map_to_list. }
  rewrite foldl_put_lookup by exact Hnd.
  rewrite (list_to_map_proper (M := gmap string) _ _ Hnd Hperm).
  rewrite list_to_map_to_list. reflexivity.
Qed.

End RangeLoops.

(** ** The structural body *)

Lemma selectValue_setBodyValue (pos : list step) (data : JSON) :
  selectValue pos (setBodyValue data) = setBodyValue <$> select pos data.
Proof.
  revert data. induction pos as [| [key | i] pos IH]; intros data.
  - reflexivity.
  - destruct data as [| b | f | s | elems | fields]; try reflexivity.
    cbn [setBodyValue selectValue select]. rewrite lookup_fmap.
    destruct (fields !! key) as [child |]; [apply IH | reflexivity].
  - destruct data as [| b | f | s | elems | fields]; try reflexivity.
    cbn [setBodyValue selectValue select].
    change (map setBodyValue elems) with (setBodyValue <$> elems).
    rewrite list_lookup_fmap.
    destruct (elems !! i) as [child |]; [apply IH | reflexivity].
Qed.

Lemma addLogRecord_last `{Library} (scopeLogs : plog.ScopeLogs) (data : JSON)
  (target : targetConfig) :
  exists record,
    plog.LogRecords (addLogRecord scopeLogs data target)
    = plog.LogRecords scopeLogs ++ [record]
    /\ plog.Body record = setBodyValue data
    /\ plog.SeverityText record = strings_ToUpper (LogLevel target)
    /\ plog.Severity record = getSeverityNumber (LogLevel target)
    /\ forall key, plog.Attributes record !! key
                   = (fun path => labelAttribute path data) <$> Labels target !! key.
Proof.
  eexists. split; [reflexivity |]. cbn.
  split; [reflexivity |]. split; [reflexivity |]. split; [reflexivity |].
  intros key.
  rewrite (range_put_lookup (fun path => labelAttribute path data)).
  rewrite lookup_empty. destruct (Labels target !! key); reflexivity.
Qed.

(** C6: the body conversion commutes with taking the value at any position
    of the tree, so a JSON null at any depth becomes the string "null" at the
    same position; a mapping becomes a keyed value with the same keys, a null
    field kept; a sequence becomes the sequence of the converted elements; the
    record that [addLogRecord] appends has the converted payload as body. *)
Theorem setBodyValue_structure :
  (forall (pos : list step) (data : JSON),
     selectValue pos (setBodyValue data) = setBodyValue <$> select pos data)
  /\ (forall (pos : list step) (data : JSON),
        select pos data = Some JNull ->
        selectValue pos (setBodyValue data) = Some (VStr "null"))
  /\ setBodyValue JNull = VStr "null"
  /\ (forall fields : gmap string JSON,
        setBodyValue (JObj fields) = VMap (setBodyValue <$> fields)
        /\ dom (setBodyValue <$> fields) = dom fields
        /\ forall key, fields !! key = Some JNull ->
                       (setBodyValue <$> fields) !! key = Some (VStr "null"))
  /\ (forall elems : list JSON,
        setBodyValue (JArr elems) = VSlice (setBodyValue <$> elems)
        /\ length (setBodyValue <$> elems) = length elems)
  /\ (forall (L : Library) (scopeLogs : plog.ScopeLogs) (data : JSON)
        (target : targetConfig),
        plog.Body <$> last (plog.LogRecords (addLogRecord scopeLogs data target))
        = Some (setBodyValue data)).
Proof.
  split; [exact selectValue_setBodyValue |].
  split.
  { intros pos data Hnull. rewrite selectValue_setBodyValue, Hnull. reflexivity. }
  split; [reflexivity |].
  split.
  { intros fields. split; [reflexivity |]. split; [apply dom_fmap_L |].
    intros key Hkey. rewrite lookup_fmap, Hkey. reflexivity. }
  split.
  { intros elems. split; [reflexivity | apply length_fmap]. }
  intros L scopeLogs data target.
  destruct (addLogRecord_last scopeLogs data target) as (record & -> & Hbody & _).
  rewrite last_snoc. cbn. rewrite Hbody. reflexivity.
Qed.

(** A null three levels down, inside a sequence, and its conversion. *)
Lemma setBodyValue_structure_witness :
  selectValue [Field "items"; Index 1; Field "owner"]
    (setBodyValue
       (JObj {[ "items" := JArr [JStr "x"; JObj {[ "owner" := JNull ]}] ]}))
  = Some (VStr "null").
Proof.
  apply (proj1 (proj2 setBodyValue_structure)). vm_compute. reflexivity.
Defined.

(** ** The JSON branch of the parser *)

(** The converted value at a position, by what the payload has there. *)
Lemma setBodyValue_mirrors (pos : list step) (data : JSON) :
  match select pos data with
  | None => selectValue pos (setBodyValue data) = None
  | Some JNull => selectValue pos (setBodyValue data) = Some (VStr "null")
  | Some (JBool b) => selectValue pos (setBodyValue data) = Some (VBool b)
  | Some (JNum f) => selectValue pos (setBodyValue data) = Some (VDouble f)
  | Some (JStr s) => selectValue pos (setBodyValue data) = Some (VStr s)
  | Some (JArr elems) =>
      exists values,
        selectValue pos (setBodyValue data) = Some (VSlice values)
        /\ length values = length elems
  | Some (JObj fields) =>
      exists values,
        selectValue pos (setBodyValue data) = Some (VMap values)
        /\ dom values = dom fields
  end.
Proof.
  rewrite selectValue_setBodyValue.
  destruct (select pos data) as [[| b | f | s | elems | fields] |];
    try reflexivity.
  - exists (setBodyValue <$> elems). split; [reflexivity | apply length_fmap].
  - exists (setBodyValue <$> fields). split; [reflexivity | apply dom_fmap_L].
Qed.

Section JSONBranch.
Context `{Library}.

Lemma parseLogs_dispatch (resp : http.Response) (body : string)
  (target : targetConfig) :
  parseLogs resp body target =
  if strings.Contains
       (strings_ToLower (http.HeaderGet (http.Header resp) "Content-Type"))
       "application/json"
  then parseJSONLogs body target plog.NewLogs
  else parseTextLogs body target plog.NewLogs.
Proof.
  unfold parseLogs.
  destruct (strings.Contains _ "application/json"); [reflexivity |].
  destruct (strings.Contains _ "text"); reflexivity.
Qed.

Lemma parseJSONLogs_record (body : string) (target : targetConfig)
  (data : JSON) :
  json_Unmarshal body = Ok data ->
  exists logs record,
    parseJSONLogs body target plog.NewLogs = Ok logs
    /\ plog.allRecords logs = [record]
    /\ plog.Body record = setBodyValue data
    /\ forall key, plog.Attributes record !! key
                   = (fun path => labelAttribute path data) <$> Labels target !! key.
Proof.
  intros Hdata. unfold parseJSONLogs. rewrite Hdata.
  destruct (addLogRecord_last {| plog.LogRecords := [] |} data target)
    as (record & Hrecords & Hbody & _ & _ & Hattrs).
  eexists _, record. split; [reflexivity |].
  split; [| split; [exact Hbody | exact Hattrs]].
  unfold plog.allRecords. cbn -[addLogRecord]. rewrite Hrecords. reflexivity.
Qed.

(** C2: under a JSON content type a payload that decodes gives exactly one
    record, whose body is the converted payload: for a top-level sequence the
    sequence of the converted elements, of the same length, and for a
    top-level mapping the keyed value of the converted fields. The body
    mirrors the payload at every position of the tree: a string, a number and
    a boolean are kept as they are, null is the string "null", a sequence is a
    sequence of the same length, a mapping a keyed value with the same keys,
    and where the payload has nothing the body has nothing. *)
Theorem parseLogs_json_one_record (resp : http.Response) (body : string)
  (target : targetConfig) (data : JSON) :
  strings.Contains
    (strings_ToLower (http.HeaderGet (http.Header resp) "Content-Type"))
    "application/json" = true ->
  json_Unmarshal body = Ok data ->
  exists logs record,
    parseLogs resp body target = Ok logs
    /\ plog.allRecords logs = [record]
    /\ plog.LogRecordCount logs = 1
    /\ plog.Body record = setBodyValue data
    /\ (forall elems, data = JArr elems ->
          plog.Body record = VSlice (setBodyValue <$> elems)
          /\ length (setBodyValue <$> elems) = length elems)
    /\ (forall fields, data = JObj fields ->
          plog.Body record = VMap (setBodyValue <$> fields)
          /\ dom (setBodyValue <$> fields) = dom fields)
    /\ (forall pos : list step,
          match select pos data with
          | None => selectValue pos (plog.Body record) = None
          | Some JNull => selectValue pos (plog.Body record) = Some (VStr "null")
          | Some (JBool b) => selectValue pos (plog.Body record) = Some (VBool b)
          | Some (JNum f) => selectValue pos (plog.Body record) = Some (VDouble f)
          | Some (JStr s) => selectValue pos (plog.Body record) = Some (VStr s)
          | Some (JArr elems) =>
              exists values,
                selectValue pos (plog.Body record) = Some (VSlice values)
                /\ length values = length elems
          | Some (JObj fields) =>
              exists values,
                selectValue pos (plog.Body record) = Some (VMap values)
                /\ dom values = dom fields
          end).
Proof.
  intros Hct Hdata. rewrite parseLogs_dispatch, Hct.
  destruct (parseJSONLogs_record body target data Hdata)
    as (logs & record & Hlogs & Hrecords & Hbody & _).
  exists logs, record. split; [exact Hlogs |]. split; [exact Hrecords |].
  split; [unfold plog.LogRecordCount; rewrite Hrecords; reflexivity |].
  split; [exact Hbody |]. split; [| split].
  - intros elems ->. split; [exact Hbody | apply length_fmap].
  - intros fields ->. split; [exact Hbody | apply dom_fmap_L].
  - intros pos. rewrite Hbody. apply setBodyValue_mirrors.
Qed.

(** C4: a label whose path extracts to null gets the attribute "NOT FOUND",
    and the parse succeeds. *)
Theorem missing_label_not_found (body : string) (target : targetConfig)
  (data : JSON) (labelName path : string) :
  json_Unmarshal body = Ok data ->
  Labels target !! labelName = Some path ->
  extractValueByPath path data = JNull ->
  exists logs record,
    parseJSONLogs body target plog.NewLogs = Ok logs
    /\ plog.allRecords logs = [record]
    /\ plog.Attributes record !! labelName = Some (VStr "NOT FOUND").
Proof.
  intros Hdata Hlabel Hnull.
  destruct (parseJSONLogs_record body target data Hdata)
    as (logs & record & Hlogs & Hrecords & _ & Hattrs).
  exists logs, record. split; [exact Hlogs |]. split; [exact Hrecords |].
  rewrite Hattrs, Hlabel. cbn. unfold labelAttribute. rewrite Hnull.
  reflexivity.
Qed.

End JSONBranch.

(** ** Dot-paths through mappings *)

Lemma Cut_segment (key rest : string) :
  strings.Cut "." key = None ->
  strings.Cut "." (key +:+ String "." rest) = Some (key, rest).
Proof.
  induction key as [| c key IH]; intros Hcut.
  - reflexivity.
  - change (String c key +:+ String "." rest)
      with (String c (key +:+ String "." rest)).
    cbn [strings.Cut] in *.
    destruct (Ascii.eqb c "."); [discriminate |].
    destruct (strings.Cut "." key) as [[before after] |]; [discriminate |].
    rewrite IH by reflexivity. reflexivity.
Qed.

Lemma isSegment_spec (key : string) :
  isSegment key = true -> key <> "" /\ strings.Cut "." key = None.
Proof.
  unfold isSegment. intros [Hne Hcut]%andb_true_iff. split.
  - intros ->. discriminate.
  - destruct (strings.Cut "." key); [discriminate | reflexivity].
Qed.

Lemma dotPath_not_empty (key : string) (keys : list string) :
  key <> "" -> dotPath (key :: keys) <> "".
Proof.
  intros Hkey. unfold dotPath. cbn [String.concat].
  destruct keys; [exact Hkey |].
  destruct key; [contradiction | discriminate].
Qed.

Lemma pathHead_single (key : string) :
  strings.Cut "." key = None ->
  pathHead (dotPath [key]) = key /\ pathTail (dotPath [key]) = "".
Proof.
  intros Hcut. unfold pathHead, pathTail, strings.SplitN2, dotPath.
  cbn [String.concat]. rewrite Hcut. split; reflexivity.
Qed.

Lemma pathHead_cons (key key' : string) (keys : list string) :
  strings.Cut "." key = None ->
  pathHead (dotPath (key :: key' :: keys)) = key
  /\ pathTail (dotPath (key :: key' :: keys)) = dotPath (key' :: keys).
Proof.
  intros Hcut. unfold pathHead, pathTail, strings.SplitN2.
  change (dotPath (key :: key' :: keys))
    with (key +:+ String "." (dotPath (key' :: keys))).
  rewrite (Cut_segment _ _ Hcut). split; reflexivity.
Qed.

Lemma eqb_false (s : string) : s <> "" -> String.eqb s "" = false.
Proof. intros Hs. apply String.eqb_neq. exact Hs. Qed.

(** A path of segments that leads through mappings to a value extracts that
    value. *)
Lemma extractValueByPath_select (keys : list string) (data v : JSON) :
  keys <> [] ->
  forallb isSegment keys = true ->
  select (Field <$> keys) data = Some v ->
  extractValueByPath (dotPath keys) data = v.
Proof.
  revert data. induction keys as [| key keys IH]; intros data Hne Hseg Hsel.
  - contradiction.
  - cbn [forallb] in Hseg. apply andb_true_iff in Hseg as [Hkey Hseg].
    apply isSegment_spec in Hkey as [Hkey Hcut].
    cbn [fmap list_fmap select] in Hsel.
    destruct data as [| b | f | s | elems | fields]; try discriminate.
    rewrite extractValueByPath_eq. cbn [isNil orb].
    rewrite (eqb_false _ (dotPath_not_empty key keys Hkey)).
    destruct keys as [| key' keys].
    + destruct (pathHead_single key Hcut) as [-> ->].
      destruct (fields !! key) as [child |]; [| discriminate].
      cbn in Hsel. injection Hsel as ->. reflexivity.
    + destruct (pathHead_cons key key' keys Hcut) as [-> ->].
      destruct (fields !! key) as [child |]; [| discriminate].
      cbn [mbind option_bind] in Hsel.
      cbn [forallb] in Hseg. pose proof Hseg as Hseg'.
      apply andb_true_iff in Hseg' as [Hkey' _].
      apply isSegment_spec in Hkey' as [Hkey' _].
      rewrite (eqb_false _ (dotPath_not_empty key' keys Hkey')).
      apply IH; [discriminate | exact Hseg | exact Hsel].
Qed.

(** A path of segments that leads through mappings to a mapping without the
    next key extracts null. *)
Lemma extractValueByPath_absent (keys : list string) (key : string)
  (rest : list string) (data : JSON) (fields : gmap string JSON) :
  forallb isSegment (keys ++ key :: rest) = true ->
  select (Field <$> keys) data = Some (JObj fields) ->
  fields !! key = None ->
  extractValueByPath (dotPath (keys ++ key :: rest)) data = JNull.
Proof.
  revert data. induction keys as [| key0 keys IH]; intros data Hseg Hsel Habs.
  - cbn in Hsel. injection Hsel as ->. cbn [app] in *.
    cbn [forallb] in Hseg. apply andb_true_iff in Hseg as [Hkey Hseg].
    apply isSegment_spec in Hkey as [Hkey Hcut].
    rewrite extractValueByPath_eq. cbn [isNil orb].
    rewrite (eqb_false _ (dotPath_not_empty key rest Hkey)).
    destruct rest as [| key' rest].
    + destruct (pathHead_single key Hcut) as [-> _]. rewrite Habs. reflexivity.
    + destruct (pathHead_cons key key' rest Hcut) as [-> _].
      rewrite Habs. reflexivity.
  - cbn [app forallb] in Hseg. apply andb_true_iff in Hseg as [Hkey Hseg].
    apply isSegment_spec in Hkey as [Hkey Hcut].
    cbn [fmap list_fmap select] in Hsel.
    destruct data as [| b | f | s | elems | fs]; try discriminate.
    rewrite extractValueByPath_eq. cbn [isNil orb app].
    rewrite (eqb_false _ (dotPath_not_empty key0 _ Hkey)).
    destruct (keys ++ key :: rest) as [| key' keys'] eqn:Hkeys.
    { destruct keys; discriminate. }
    destruct (pathHead_cons key0 key' keys' Hcut) as [-> ->].
    destruct (fs !! key0) as [child |]; [| reflexivity].
    cbn [mbind option_bind] in Hsel.
    pose proof Hseg as Hseg'. cbn [forallb] in Hseg'.
    apply andb_true_iff in Hseg' as [Hkey' _].
    apply isSegment_spec in Hkey' as [Hkey' _].
    rewrite (eqb_false _ (dotPath_not_empty key' keys' Hkey')).
    apply IH; [exact Hseg | exact Hsel | exact Habs].
Qed.

Section NullField.
Context `{Library}.

(** C10: a label whose path leads through mappings to a field that is present
    with the value null extracts null, so its attribute is "NOT FOUND", the
    attribute that a payload without the field gets as well; in the body of
    the same record the field is the string "null". *)
Theorem null_field_label_not_found (body : string) (target : targetConfig)
  (data : JSON) (labelName : string) (keys : list string) :
  json_Unmarshal body = Ok data ->
  keys <> [] ->
  forallb isSegment keys = true ->
  Labels target !! labelName = Some (dotPath keys) ->
  select (Field <$> keys) data = Some JNull ->
  extractValueByPath (dotPath keys) data = JNull
  /\ (exists logs record,
        parseJSONLogs body target plog.NewLogs = Ok logs
        /\ plog.allRecords logs = [record]
        /\ plog.Attributes record !! labelName = Some (VStr "NOT FOUND")
        /\ selectValue (Field <$> keys) (plog.Body record) = Some (VStr "null"))
  /\ (forall (body' : string) (data' : JSON) (keys0 : list string)
        (key : string) (rest : list string) (fields : gmap string JSON),
        keys = keys0 ++ key :: rest ->
        json_Unmarshal body' = Ok data' ->
        select (Field <$> keys0) data' = Some (JObj fields) ->
        fields !! key = None ->
        exists logs record,
          parseJSONLogs body' target plog.NewLogs = Ok logs
          /\ plog.allRecords logs = [record]
          /\ plog.Attributes record !! labelName = Some (VStr "NOT FOUND")).
Proof.
  intros Hdata Hne Hseg Hlabel Hsel.
  pose proof (extractValueByPath_select keys data JNull Hne Hseg Hsel) as Hnull.
  split; [exact Hnull |]. split.
  - destruct (parseJSONLogs_record body target data Hdata)
      as (logs & record & Hlogs & Hrecords & Hbody & Hattrs).
    exists logs, record. split; [exact Hlogs |]. split; [exact Hrecords |].
    split.
    + rewrite Hattrs, Hlabel. cbn. unfold labelAttribute. rewrite Hnull.
      reflexivity.
    + rewrite Hbody, selectValue_setBodyValue, Hsel. reflexivity.
  - intros body' data' keys0 key rest fields -> Hdata' Hsel' Habs.
    destruct (parseJSONLogs_record body' target data' Hdata')
      as (logs & record & Hlogs & Hrecords & _ & Hattrs).
    exists logs, record. split; [exact Hlogs |]. split; [exact Hrecords |].
    rewrite Hattrs, Hlabel. cbn. unfold labelAttribute.
    rewrite (extractValueByPath_absent keys0 key rest data' fields Hseg Hsel' Habs).
    reflexivity.
Qed.

End NullField.

(** The two users of the example, polled as JSON: one record, a body of
    length 2. *)
Lemma parseLogs_json_one_record_witness :
  exists logs record,
    parseLogs (H := libraryOf exampleUsers (jsonResponse "users"))
      (jsonResponse "users") "users" exampleTarget = Ok logs
    /\ plog.allRecords logs = [record]
    /\ plog.LogRecordCount logs = 1
    /\ (exists elems, plog.Body record = VSlice elems /\ length elems = 2)
    /\ selectValue [Index 1; Field "company"; Field "name"] (plog.Body record)
       = Some (VStr "B").
Proof.
  destruct (parseLogs_json_one_record
              (H := libraryOf exampleUsers (jsonResponse "users"))
              (jsonResponse "users") "users" exampleTarget exampleUsers)
    as (logs & record & Hlogs & Hrecords & Hcount & _ & Harr & _ & Hmirror).
  - vm_compute. reflexivity.
  - reflexivity.
  - exists logs, record. split; [exact Hlogs |]. split; [exact Hrecords |].
    split; [exact Hcount |]. split.
    + destruct (Harr _ eq_refl) as [Hbody Hlen].
      eexists. split; [exact Hbody | exact Hlen].
    + exact (Hmirror [Index 1; Field "company"; Field "name"]).
Defined.

(** The label "missing_field", with the path "does.not.exist", on the two
    users of the example. *)
Lemma missing_label_not_found_witness :
  exists logs record,
    parseJSONLogs (H := libraryOf exampleUsers (jsonResponse "users"))
      "users" exampleTarget plog.NewLogs = Ok logs
    /\ plog.allRecords logs = [record]
    /\ plog.Attributes record !! "missing_field" = Some (VStr "NOT FOUND").
Proof.
  apply (missing_label_not_found
           (H := libraryOf exampleUsers (jsonResponse "users"))
           "users" exampleTarget exampleUsers "missing_field" "does.not.exist").
  - reflexivity.
  - vm_compute. reflexivity.
  - vm_compute. reflexivity.
Defined.

(** The label "mail", with the path "user.email", on a user whose email is
    null and on a user without email. *)
Lemma null_field_label_not_found_witness :
  extractValueByPath (dotPath ["user"; "email"]) exampleNullUser = JNull
  /\ (exists logs record,
        parseJSONLogs (H := userLibrary) "user" emailTarget plog.NewLogs = Ok logs
        /\ plog.allRecords logs = [record]
        /\ plog.Attributes record !! "mail" = Some (VStr "NOT FOUND")
        /\ selectValue (Field <$> ["user"; "email"]) (plog.Body record)
           = Some (VStr "null"))
  /\ (exists logs record,
        parseJSONLogs (H := userLibrary) "no-email" emailTarget plog.NewLogs
        = Ok logs
        /\ plog.allRecords logs = [record]
        /\ plog.Attributes record !! "mail" = Some (VStr "NOT FOUND")).
Proof.
  destruct (null_field_label_not_found (H := userLibrary)
              "user" emailTarget exampleNullUser "mail" ["user"; "email"])
    as (Hnull & Hrecord & Habsent).
  - reflexivity.
  - discriminate.
  - vm_compute. reflexivity.
  - vm_compute. reflexivity.
  - vm_compute. reflexivity.
  - split; [exact Hnull |]. split; [exact Hrecord |].
    apply (Habsent "no-email" exampleNoEmailUser ["user"] "email" []
             {[ "name" := JStr "Ann" ]}).
    + reflexivity.
    + reflexivity.
    + vm_compute. reflexivity.
    + vm_compute. reflexivity.
Defined.

(** ** The text branch of the parser *)

Section TextBranch.
Context `{Library}.

(** On lines of ASCII bytes the trimming is the ASCII one. *)
Lemma survivingLines_ascii (body : string) :
  forallb isASCII (strings.Split (ascii_of_nat 10) body) = true ->
  survivingLines body
  = filter (fun line : string => line <> "")
           (strings.TrimSpaceASCII <$> strings.Split (ascii_of_nat 10) body).
Proof.
  unfold survivingLines. intros Hascii. f_equal.
  induction (strings.Split (ascii_of_nat 10) body) as [| line lines IH];
    [reflexivity |].
  cbn [forallb] in Hascii. apply andb_true_iff in Hascii as [Hline Hlines].
  cbn [fmap list_fmap]. rewrite (strings_TrimSpace_ascii line Hline).
  f_equal. exact (IH Hlines).
Qed.

Lemma textRecords_filter (target : targetConfig) (lines : list string)
  (records : list plog.LogRecord) :
  textRecords target lines records =
  records ++ (textRecord target
                <$> filter (fun line : string => line <> "")
                           (strings_TrimSpace <$> lines)).
Proof.
  revert records. induction lines as [| line lines IH]; intros records.
  - cbn. rewrite app_nil_r. reflexivity.
  - cbn [textRecords fmap list_fmap]. rewrite filter_cons.
    destruct (String.eqb_spec (strings_TrimSpace line) "") as [Heq | Hneq].
    + rewrite decide_False by (intros Hne; apply Hne, Heq). apply IH.
    + rewrite decide_True by exact Hneq. rewrite IH, <- app_assoc.
      reflexivity.
Qed.

Lemma parseTextLogs_records (body : string) (target : targetConfig) :
  exists logs,
    parseTextLogs body target plog.NewLogs = Ok logs
    /\ plog.allRecords logs = textRecord target <$> survivingLines body.
Proof.
  eexists. split; [reflexivity |].
  unfold plog.allRecords. cbn -[textRecords strings.Split].
  rewrite textRecords_filter, !app_nil_r. reflexivity.
Qed.

(** C3: under a content type that is not JSON the body is split at the
    newlines, every line is trimmed, the empty ones are dropped, and each line
    left gives one record whose body is the trimmed line, in order; the number
    of records is the number of these lines. The body of the example gives
    "alpha", "beta" and "gamma". *)
Theorem parseLogs_text_lines (resp : http.Response) (body : string)
  (target : targetConfig) :
  strings.Contains
    (strings_ToLower (http.HeaderGet (http.Header resp) "Content-Type"))
    "application/json" = false ->
  (exists logs,
     parseLogs resp body target = Ok logs
     /\ plog.Body <$> plog.allRecords logs = VStr <$> survivingLines body
     /\ plog.LogRecordCount logs = length (survivingLines body))
  /\ survivingLines body
     = filter (fun line : string => line <> "")
              (strings_TrimSpace <$> strings.Split (ascii_of_nat 10) body)
  /\ survivingLines exampleText = ["alpha"; "beta"; "gamma"].
Proof.
  intros Hct. split; [| split; [reflexivity |]].
  2: { rewrite survivingLines_ascii by (vm_compute; reflexivity).
       vm_compute. reflexivity. }
  rewrite parseLogs_dispatch, Hct.
  destruct (parseTextLogs_records body target) as (logs & Hlogs & Hrecords).
  exists logs. split; [exact Hlogs |]. split.
  - rewrite Hrecords, <- list_fmap_compose. reflexivity.
  - unfold plog.LogRecordCount. rewrite Hrecords. apply length_fmap.
Qed.

End TextBranch.

(** The text of the example, served as text/plain: three records. *)
Lemma parseLogs_text_lines_witness :
  exists logs,
    parseLogs (H := libraryOf JNull (textResponse exampleText))
      (textResponse exampleText) exampleText exampleTarget = Ok logs
    /\ plog.Body <$> plog.allRecords logs
       = [VStr "alpha"; VStr "beta"; VStr "gamma"]
    /\ plog.LogRecordCount logs = 3.
Proof.
  destruct (parseLogs_text_lines
              (H := libraryOf JNull (textResponse exampleText))
              (textResponse exampleText) exampleText exampleTarget)
    as ((logs & Hlogs & Hbodies & Hcount) & _ & Hlines).
  - vm_compute. reflexivity.
  - exists logs. split; [exact Hlogs |].
    rewrite Hbodies, Hcount, Hlines. split; reflexivity.
Defined.

(** ** The severity mapper *)

Lemma lowerByte_upperByte (c : ascii) :
  strings.lowerByte (strings.upperByte c) = strings.lowerByte c.
Proof. destruct c as [[] [] [] [] [] [] [] []]; reflexivity. Qed.

Lemma lowerByte_idem (c : ascii) :
  strings.lowerByte (strings.lowerByte c) = strings.lowerByte c.
Proof. destruct c as [[] [] [] [] [] [] [] []]; reflexivity. Qed.

Lemma upperByte_ascii (c : ascii) :
  (N_of_ascii c <? 128)%N = true ->
  (N_of_ascii (strings.upperByte c) <? 128)%N = true.
Proof.
  destruct c as [[] [] [] [] [] [] [] []]; intros Hc;
    first [reflexivity | exact Hc].
Qed.

Lemma lowerByte_ascii (c : ascii) :
  (N_of_ascii c <? 128)%N = true ->
  (N_of_ascii (strings.lowerByte c) <? 128)%N = true.
Proof.
  destruct c as [[] [] [] [] [] [] [] []]; intros Hc;
    first [reflexivity | exact Hc].
Qed.

Lemma isASCII_ToUpperASCII (s : string) :
  isASCII s = true -> isASCII (strings.ToUpperASCII s) = true.
Proof.
  induction s as [| c s IH]; [reflexivity |].
  cbn [isASCII strings.ToUpperASCII strings.mapBytes].
  intros [Hc Hs]%andb_true_iff. apply andb_true_iff.
  split; [exact (upperByte_ascii c Hc) | exact (IH Hs)].
Qed.

Lemma isASCII_ToLowerASCII (s : string) :
  isASCII s = true -> isASCII (strings.ToLowerASCII s) = true.
Proof.
  induction s as [| c s IH]; [reflexivity |].
  cbn [isASCII strings.ToLowerASCII strings.mapBytes].
  intros [Hc Hs]%andb_true_iff. apply andb_true_iff.
  split; [exact (lowerByte_ascii c Hc) | exact (IH Hs)].
Qed.

Lemma ToLowerASCII_ToUpperASCII (s : string) :
  strings.ToLowerASCII (strings.ToUpperASCII s) = strings.ToLowerASCII s.
Proof.
  induction s as [| c s IH]; [reflexivity |].
  cbn. rewrite lowerByte_upperByte. f_equal. exact IH.
Qed.

Lemma ToLowerASCII_idem (s : string) :
  strings.ToLowerASCII (strings.ToLowerASCII s) = strings.ToLowerASCII s.
Proof.
  induction s as [| c s IH]; [reflexivity |].
  cbn. rewrite lowerByte_idem. f_equal. exact IH.
Qed.

Section SeverityMapper.
Context `{Library}.

Lemma ToLower_ToUpper (s : string) :
  isASCII s = true ->
  strings_ToLower (strings_ToUpper s) = strings_ToLower s.
Proof.
  intros Hs. rewrite (strings_ToUpper_ascii s Hs).
  rewrite (strings_ToLower_ascii _ (isASCII_ToUpperASCII s Hs)).
  rewrite (strings_ToLower_ascii s Hs). apply ToLowerASCII_ToUpperASCII.
Qed.

Lemma ToLower_idem (s : string) :
  isASCII s = true ->
  strings_ToLower (strings_ToLower s) = strings_ToLower s.
Proof.
  intros Hs. rewrite (strings_ToLower_ascii s Hs).
  rewrite (strings_ToLower_ascii _ (isASCII_ToLowerASCII s Hs)).
  apply ToLowerASCII_idem.
Qed.

Lemma getSeverityNumber_ToLower (l1 l2 : string) :
  strings_ToLower l1 = strings_ToLower l2 ->
  getSeverityNumber l1 = getSeverityNumber l2.
Proof. unfold getSeverityNumber. intros ->. reflexivity. Qed.

(** On a level of ASCII bytes the lower-casing is the ASCII one. *)
Lemma getSeverityNumber_ascii (level : string) :
  isASCII level = true ->
  getSeverityNumber level =
  let l := strings.ToLowerASCII level in
  if String.eqb l "trace" then plog.SeverityNumberTrace
  else if String.eqb l "debug" then plog.SeverityNumberDebug
  else if String.eqb l "info" then plog.SeverityNumberInfo
  else if String.eqb l "warn" || String.eqb l "warning"
       then plog.SeverityNumberWarn
  else if String.eqb l "error" then plog.SeverityNumberError
  else if String.eqb l "fatal" then plog.SeverityNumberFatal
  else plog.SeverityNumberInfo.
Proof.
  intros Hlevel. unfold getSeverityNumber.
  rewrite (strings_ToLower_ascii level Hlevel). reflexivity.
Qed.

Ltac severity_cases level :=
  unfold getSeverityNumber;
  generalize (strings_ToLower level); intros l;
  repeat match goal with
         | |- context [String.eqb l ?s] =>
             destruct (String.eqb_spec l s); subst
         end;
  cbn [orb].

(** C5: [getSeverityNumber] is a total function of the lower-cased level
    alone, so the case of the letters does not matter ("WARNING" and "warn"
    agree, and a level of ASCII bytes maps as its upper-case and lower-case
    forms do); it gives each of the six severities on exactly its names, and
    info on every other level, the empty one included. *)
Theorem getSeverityNumber_total_case_insensitive :
  getSeverityNumber "WARNING" = getSeverityNumber "warn"
  /\ (forall l1 l2,
        strings_ToLower l1 = strings_ToLower l2 ->
        getSeverityNumber l1 = getSeverityNumber l2)
  /\ (forall level,
        isASCII level = true ->
        getSeverityNumber (strings_ToUpper level) = getSeverityNumber level
        /\ getSeverityNumber (strings_ToLower level) = getSeverityNumber level)
  /\ (forall level,
        (getSeverityNumber level = plog.SeverityNumberTrace
           <-> strings_ToLower level = "trace")
        /\ (getSeverityNumber level = plog.SeverityNumberDebug
              <-> strings_ToLower level = "debug")
        /\ (getSeverityNumber level = plog.SeverityNumberWarn
              <-> strings_ToLower level = "warn"
                  \/ strings_ToLower level = "warning")
        /\ (getSeverityNumber level = plog.SeverityNumberError
              <-> strings_ToLower level = "error")
        /\ (getSeverityNumber level = plog.SeverityNumberFatal
              <-> strings_ToLower level = "fatal")
        /\ (getSeverityNumber level = plog.SeverityNumberInfo
              <-> strings_ToLower level
                  ∉ ["trace"; "debug"; "warn"; "warning"; "error"; "fatal"]))
  /\ getSeverityNumber "" = plog.SeverityNumberInfo
  /\ getSeverityNumber "other" = plog.SeverityNumberInfo.
Proof.
  split; [rewrite !getSeverityNumber_ascii by reflexivity; reflexivity |].
  split; [exact getSeverityNumber_ToLower |]. split.
  { intros level Hlevel. split; apply getSeverityNumber_ToLower.
    - apply ToLower_ToUpper, Hlevel.
    - apply ToLower_idem, Hlevel. }
  split; [| split; rewrite getSeverityNumber_ascii by reflexivity; reflexivity].
  intros level. repeat split; severity_cases level;
    try discriminate; try reflexivity; try tauto;
    try (intros [? | ?]; discriminate);
    try (intros _; rewrite !elem_of_cons, elem_of_nil;
         intros Hin; decompose [or] Hin; congruence);
    try (intros Hnotin; exfalso; apply Hnotin;
         rewrite !elem_of_cons; tauto).
Qed.

End SeverityMapper.

(** The level "Warning", of ASCII letters, and its upper-case form. *)
Lemma getSeverityNumber_total_case_insensitive_witness :
  getSeverityNumber (H := libraryOf JNull errorResponse)
    (strings_ToUpper (Library := libraryOf JNull errorResponse) "Warning")
  = getSeverityNumber (H := libraryOf JNull errorResponse) "Warning"
  /\ getSeverityNumber (H := libraryOf JNull errorResponse) "Warning"
     = plog.SeverityNumberWarn.
Proof.
  destruct (getSeverityNumber_total_case_insensitive
              (H := libraryOf JNull errorResponse))
    as (_ & _ & Hcase & Hnames & _).
  split.
  - apply (Hcase "Warning"). reflexivity.
  - apply (Hnames "Warning"). right. reflexivity.
Defined.

(** ** The request builder *)

Lemma foldl_HeaderSet_lookup (l : list (string * string)) (name : string) :
  (foldl (fun h kv => http.HeaderSet kv.1 kv.2 h) ∅ l !! name = None
   /\ forall k v, (k, v) ∈ l -> textproto.CanonicalMIMEHeaderKey k <> name)
  \/ (exists k v,
        (k, v) ∈ l /\ textproto.CanonicalMIMEHeaderKey k = name
        /\ foldl (fun h kv => http.HeaderSet kv.1 kv.2 h) ∅ l !! name
           = Some [v]).
Proof.
  induction l as [| [k v] l IH] using rev_ind.
  - left. split; [apply lookup_empty |]. intros k v Hin. inversion Hin.
  - rewrite foldl_app. cbn [foldl fst snd]. unfold http.HeaderSet at 1 3.
    destruct (decide (textproto.CanonicalMIMEHeaderKey k = name)) as [Hk | Hk].
    + right. exists k, v. split; [| split; [exact Hk |]].
      * apply elem_of_app. right. apply list_elem_of_singleton. reflexivity.
      * rewrite Hk. apply lookup_insert_eq.
    + rewrite !lookup_insert_ne by exact Hk.
      destruct IH as [[Hnone Hall] | (k' & v' & Hin & Hk' & Hsome)].
      * left. split; [exact Hnone |].
        intros k0 v0 [Hin | Hin%list_elem_of_singleton]%elem_of_app.
        -- exact (Hall k0 v0 Hin).
        -- injection Hin as -> ->. exact Hk.
      * right. exists k', v'. split; [| split; [exact Hk' | exact Hsome]].
        apply elem_of_app. left. exact Hin.
Qed.

Section RequestBuilder.
Context `{Library}.

Lemma elem_of_rangeMap (m : gmap string string) (k v : string) :
  (k, v) ∈ rangeMap m <-> m !! k = Some v.
Proof. rewrite (rangeMap_perm m). apply elem_of_map_to_list. Qed.

(** The headers that the target sets: a name that no key of the target
    canonicalises to is absent, any other holds the value of one such key. *)
Lemma setHeaders_lookup (target : targetConfig) (name : string) :
  (setHeaders target !! name = None
   /\ forall k v, Headers target !! k = Some v ->
                  textproto.CanonicalMIMEHeaderKey k <> name)
  \/ (exists k v,
        Headers target !! k = Some v
        /\ textproto.CanonicalMIMEHeaderKey k = name
        /\ setHeaders target !! name = Some [v]).
Proof.
  unfold setHeaders.
  destruct (foldl_HeaderSet_lookup (rangeMap (Headers target)) name)
    as [[Hnone Hall] | (k & v & Hin & Hk & Hsome)].
  - left. split; [exact Hnone |]. intros k v Hkv.
    apply (Hall k v). apply elem_of_rangeMap. exact Hkv.
  - right. exists k, v. split; [apply elem_of_rangeMap; exact Hin |].
    split; [exact Hk | exact Hsome].
Qed.

Lemma HeaderGet_HeaderSet (h : gmap string (list string)) (value : string) :
  http.HeaderGet (http.HeaderSet "Content-Type" value h) "Content-Type" = value.
Proof.
  unfold http.HeaderGet, http.HeaderSet. rewrite lookup_insert_eq. reflexivity.
Qed.

(** C7, as the code has it: the request has a body reader exactly when the
    body of the target is not empty; without a body the headers are those
    copied from the target; with a body, when the copied headers give no
    Content-Type or an empty one (in particular when no header name of the
    target canonicalises to Content-Type), Content-Type is inferred from the
    body: "application/json" when the trimmed body starts with "{",
    "text/plain" otherwise; when the copied headers give a Content-Type that
    is not empty the headers are left as copied, so that, when every header
    of the target whose name canonicalises to Content-Type has a value that
    is not empty, the request has one of these values. *)
Theorem createRequest_content_type (target : targetConfig) (req : http.Request) :
  createRequest target = Ok req ->
  http.ReqBody req
  = (if decide (Body target = "") then None else Some (Body target))
  /\ (Body target = "" -> http.ReqHeader req = setHeaders target)
  /\ (Body target <> "" ->
      http.HeaderGet (setHeaders target) "Content-Type" = "" ->
      http.ReqHeader req
      = http.HeaderSet "Content-Type" (inferredContentType (Body target))
          (setHeaders target)
      /\ http.HeaderGet (http.ReqHeader req) "Content-Type"
         = inferredContentType (Body target))
  /\ (Body target <> "" ->
      (forall k, textproto.CanonicalMIMEHeaderKey k = "Content-Type" ->
                 Headers target !! k = None) ->
      http.HeaderGet (http.ReqHeader req) "Content-Type"
      = inferredContentType (Body target))
  /\ (http.HeaderGet (setHeaders target) "Content-Type" <> "" ->
      http.ReqHeader req = setHeaders target)
  /\ ((exists k, textproto.CanonicalMIMEHeaderKey k = "Content-Type"
                 /\ is_Some (Headers target !! k)) ->
      (forall k v, textproto.CanonicalMIMEHeaderKey k = "Content-Type" ->
                   Headers target !! k = Some v -> v <> "") ->
      http.ReqHeader req = setHeaders target
      /\ exists k v,
           textproto.CanonicalMIMEHeaderKey k = "Content-Type"
           /\ Headers target !! k = Some v
           /\ http.HeaderGet (http.ReqHeader req) "Content-Type" = v).
Proof.
  unfold createRequest.
  destruct (http_NewRequestError (Method target) (Endpoint target));
    [discriminate |].
  intros Hreq. injection Hreq as <-. cbn [http.ReqBody http.ReqHeader].
  assert (Hinfer : Body target <> "" ->
            http.HeaderGet (setHeaders target) "Content-Type" = "" ->
            (if negb (String.eqb (Body target) "")
                && String.eqb (http.HeaderGet (setHeaders target) "Content-Type") ""
             then
               if strings.HasPrefix (strings_TrimSpace (Body target)) "{"
               then http.HeaderSet "Content-Type" "application/json"
                      (setHeaders target)
               else http.HeaderSet "Content-Type" "text/plain" (setHeaders target)
             else setHeaders target)
            = http.HeaderSet "Content-Type" (inferredContentType (Body target))
                (setHeaders target)).
  { intros Hbody Hget. rewrite (eqb_false _ Hbody), Hget. cbn.
    unfold inferredContentType.
    destruct (strings.HasPrefix _ "{"); reflexivity. }
  assert (Hkeep : http.HeaderGet (setHeaders target) "Content-Type" <> "" ->
            (if negb (String.eqb (Body target) "")
                && String.eqb (http.HeaderGet (setHeaders target) "Content-Type") ""
             then
               if strings.HasPrefix (strings_TrimSpace (Body target)) "{"
               then http.HeaderSet "Content-Type" "application/json"
                      (setHeaders target)
               else http.HeaderSet "Content-Type" "text/plain" (setHeaders target)
             else setHeaders target)
            = setHeaders target).
  { intros Hget. rewrite (eqb_false _ Hget), andb_false_r. reflexivity. }
  split; [| split; [| split; [| split; [| split]]]].
  - destruct (String.eqb_spec (Body target) "") as [Hb | Hb].
    + rewrite decide_True by exact Hb. reflexivity.
    + rewrite decide_False by exact Hb. reflexivity.
  - intros ->. reflexivity.
  - intros Hbody Hget. rewrite (Hinfer Hbody Hget).
    split; [reflexivity | apply HeaderGet_HeaderSet].
  - intros Hbody Hnone.
    assert (Hget : http.HeaderGet (setHeaders target) "Content-Type" = "").
    { unfold http.HeaderGet.
      destruct (setHeaders_lookup target
                  (textproto.CanonicalMIMEHeaderKey "Content-Type"))
        as [[-> _] | (k & v & Hkv & Hk & _)]; [reflexivity |].
      rewrite (Hnone k Hk) in Hkv. discriminate. }
    rewrite (Hinfer Hbody Hget). apply HeaderGet_HeaderSet.
  - exact Hkeep.
  - intros (k0 & Hk0 & [v0 Hv0]) Hvalues.
    destruct (setHeaders_lookup target
                (textproto.CanonicalMIMEHeaderKey "Content-Type"))
      as [[_ Hall] | (k & v & Hkv & Hk & Hsome)].
    { exfalso. exact (Hall k0 v0 Hv0 Hk0). }
    assert (Hget : http.HeaderGet (setHeaders target) "Content-Type" = v).
    { unfold http.HeaderGet. rewrite Hsome. reflexivity. }
    assert (Hv : v <> "") by exact (Hvalues k v Hk Hkv).
    rewrite Hkeep by (rewrite Hget; exact Hv).
    split; [reflexivity |]. exists k, v. split; [exact Hk |].
    split; [exact Hkv | exact Hget].
Qed.

End RequestBuilder.

(** The bodies of the specification's examples without headers, and a
    lower-case content-type header that is kept. *)
Lemma createRequest_content_type_witness :
  (exists req,
     createRequest (H := libraryOf JNull errorResponse)
       (postTarget exampleJSONBody ∅) = Ok req
     /\ http.HeaderGet (http.ReqHeader req) "Content-Type" = "application/json")
  /\ (exists req,
        createRequest (H := libraryOf JNull errorResponse)
          (postTarget "plain text" ∅) = Ok req
        /\ http.HeaderGet (http.ReqHeader req) "Content-Type" = "text/plain")
  /\ (exists req,
        createRequest (H := libraryOf JNull errorResponse)
          (postTarget exampleJSONBody {[ "content-type" := "application/xml" ]})
        = Ok req
        /\ http.ReqHeader req = {[ "Content-Type" := ["application/xml"] ]}).
Proof.
  split; [| split].
  - eexists. split; [reflexivity |].
    refine (proj2 (proj1 (proj2 (proj2
      (createRequest_content_type (H := libraryOf JNull errorResponse)
         (postTarget exampleJSONBody ∅) _ eq_refl))) _ _)).
    + discriminate.
    + vm_compute. reflexivity.
  - eexists. split; [reflexivity |].
    refine (proj2 (proj1 (proj2 (proj2
      (createRequest_content_type (H := libraryOf JNull errorResponse)
         (postTarget "plain text" ∅) _ eq_refl))) _ _)).
    + discriminate.
    + vm_compute. reflexivity.
  - eexists. split; [reflexivity |].
    etransitivity;
      [ refine (proj1 (proj2 (proj2 (proj2 (proj2
          (createRequest_content_type (H := libraryOf JNull errorResponse)
             (postTarget exampleJSONBody
                {[ "content-type" := "application/xml" ]}) _ eq_refl))))) _)
      | vm_compute; reflexivity ].
    vm_compute. discriminate.
Defined.

(** A target that sets Content-Type to the empty string and has a body: the
    request carries the inferred "text/plain", not the value that the target
    set. *)
Lemma createRequest_overrides_empty_content_type :
  Headers (postTarget "plain text" {[ "Content-Type" := "" ]}) !! "Content-Type"
  = Some ""
  /\ exists req,
       createRequest (H := libraryOf JNull errorResponse)
         (postTarget "plain text" {[ "Content-Type" := "" ]}) = Ok req
       /\ http.HeaderGet (http.ReqHeader req) "Content-Type" = "text/plain"
       /\ http.HeaderGet (http.ReqHeader req) "Content-Type" <> "".
Proof.
  split; [vm_compute; reflexivity |].
  eexists. split; [reflexivity |].
  split; [vm_compute; reflexivity | vm_compute; discriminate].
Qed.

(** ** Configuration validation *)

Section Validation.
Context `{Library}.

Lemma rejected_true (target : targetConfig) :
  rejected target = true <->
  Endpoint target = "" \/ url_ParseRequestURI (Endpoint target) <> None.
Proof.
  unfold rejected. destruct (String.eqb_spec (Endpoint target) "") as [He | He].
  - cbn. split; [intros _; left; exact He | reflexivity].
  - cbn. destruct (url_ParseRequestURI (Endpoint target)).
    + split; [intros _; right; discriminate | reflexivity].
    + split; [discriminate | intros [Hc | Hc]; contradiction].
Qed.

Lemma eqb_decide (s : string) (A : Type) (x y : A) :
  (if String.eqb s "" then x else y) = (if decide (s = "") then x else y).
Proof.
  destruct (String.eqb_spec s "") as [Hs | Hs].
  - rewrite decide_True by exact Hs. reflexivity.
  - rewrite decide_False by exact Hs. reflexivity.
Qed.

Lemma targetConfig_Validate_accepted (target : targetConfig) :
  rejected target = false ->
  targetConfig_Validate target = (None, withDefaults target).
Proof.
  unfold rejected, targetConfig_Validate, withDefaults.
  destruct (String.eqb (Endpoint target) ""); [discriminate |].
  destruct (url_ParseRequestURI (Endpoint target)); [discriminate |].
  intros _. rewrite !eqb_decide. reflexivity.
Qed.

Lemma targetConfig_Validate_rejected (target : targetConfig) :
  rejected target = true ->
  (Endpoint target = ""
   /\ targetConfig_Validate target = (Some errMissingEndpoint, target))
  \/ (Endpoint target <> ""
      /\ exists parseErr,
           url_ParseRequestURI (Endpoint target) = Some parseErr
           /\ targetConfig_Validate target
              = (Some (errInvalidEndpoint parseErr), target)).
Proof.
  unfold rejected, targetConfig_Validate.
  destruct (String.eqb_spec (Endpoint target) "") as [He | He].
  - intros _. left. split; [exact He | reflexivity].
  - destruct (url_ParseRequestURI (Endpoint target)) as [parseErr |];
      [| discriminate].
    intros _. right. split; [exact He |]. exists parseErr. split; reflexivity.
Qed.

Lemma validateTargets_accepted (targets : list targetConfig) :
  Forall (fun target => rejected target = false) targets ->
  validateTargets targets = (None, withDefaults <$> targets).
Proof.
  induction 1 as [| target targets Hacc _ IH]; [reflexivity |].
  cbn [validateTargets]. rewrite (targetConfig_Validate_accepted _ Hacc), IH.
  reflexivity.
Qed.

Lemma validateTargets_first_rejected (good : list targetConfig)
  (bad : targetConfig) (rest : list targetConfig) :
  Forall (fun target => rejected target = false) good ->
  rejected bad = true ->
  validateTargets (good ++ bad :: rest)
  = ((targetConfig_Validate bad).1, (withDefaults <$> good) ++ bad :: rest).
Proof.
  intros Hgood Hbad. induction Hgood as [| target good Hacc _ IH].
  - cbn [app validateTargets fmap list_fmap].
    destruct (targetConfig_Validate_rejected bad Hbad)
      as [[_ ->] | (_ & parseErr & _ & ->)]; reflexivity.
  - cbn [app validateTargets]. rewrite (targetConfig_Validate_accepted _ Hacc), IH.
    reflexivity.
Qed.

(** The targets are all accepted, or there is a first rejected one. *)
Lemma targets_split (targets : list targetConfig) :
  Forall (fun target => rejected target = false) targets
  \/ exists good bad rest,
       targets = good ++ bad :: rest
       /\ Forall (fun target => rejected target = false) good
       /\ rejected bad = true.
Proof.
  induction targets as [| target targets IH]; [left; constructor |].
  destruct (rejected target) eqn:Hrej.
  - right. exists [], target, targets. split; [reflexivity |].
    split; [constructor | exact Hrej].
  - destruct IH as [Hall | (good & bad & rest & -> & Hgood & Hbad)].
    + left. constructor; assumption.
    + right. exists (target :: good), bad, rest. split; [reflexivity |].
      split; [constructor; assumption | exact Hbad].
Qed.

Lemma first_rejected_unique (good good' : list targetConfig)
  (bad bad' : targetConfig) (rest rest' : list targetConfig) :
  good ++ bad :: rest = good' ++ bad' :: rest' ->
  Forall (fun target => rejected target = false) good ->
  Forall (fun target => rejected target = false) good' ->
  rejected bad = true -> rejected bad' = true ->
  bad = bad'.
Proof.
  revert good'. induction good as [| target good IH]; intros good' Heq Hg Hg' Hb Hb'.
  - destruct good' as [| target' good'].
    + cbn in Heq. congruence.
    + cbn in Heq. injection Heq as -> _.
      apply Forall_cons in Hg' as [Hacc _]. congruence.
  - destruct good' as [| target' good'].
    + cbn in Heq. injection Heq as -> _.
      apply Forall_cons in Hg as [Hacc _]. congruence.
    + cbn in Heq. injection Heq as -> Heq.
      apply Forall_cons in Hg as [_ Hg]. apply Forall_cons in Hg' as [_ Hg'].
      exact (IH good' Heq Hg Hg' Hb Hb').
Qed.

(** The outcome of [Config_Validate], by cases. *)
Lemma Config_Validate_cases (cfg : Config) :
  (Targets cfg = [] /\ Config_Validate cfg = (Some errNoTargets, cfg))
  \/ (Targets cfg <> []
      /\ Forall (fun target => rejected target = false) (Targets cfg)
      /\ Config_Validate cfg
         = (None,
            {| CollectionInterval :=
                 if decide (CollectionInterval cfg <= 0)%Z then (30 * Second)%Z
                 else CollectionInterval cfg;
               Targets := withDefaults <$> Targets cfg |}))
  \/ (exists good bad rest,
        Targets cfg = good ++ bad :: rest
        /\ Forall (fun target => rejected target = false) good
        /\ rejected bad = true
        /\ (Config_Validate cfg).1 = (targetConfig_Validate bad).1).
Proof.
  unfold Config_Validate.
  destruct (Targets cfg) as [| target targets] eqn:Htargets.
  { left. split; reflexivity. }
  right. cbn [length Nat.eqb].
  destruct (targets_split (target :: targets))
    as [Hall | (good & bad & rest & Heq & Hgood & Hbad)].
  - left. split; [discriminate |]. split; [exact Hall |].
    rewrite (validateTargets_accepted _ Hall).
    destruct (Z.leb_spec (CollectionInterval cfg) 0) as [Hle | Hgt].
    + rewrite decide_True by exact Hle. reflexivity.
    + rewrite decide_False by lia. reflexivity.
  - right. exists good, bad, rest. split; [exact Heq |].
    split; [exact Hgood |]. split; [exact Hbad |].
    rewrite Heq, (validateTargets_first_rejected _ _ _ Hgood Hbad). reflexivity.
Qed.

End Validation.

Section ValidationSpec.
Context `{Library}.

Lemma accepted_not_in (targets : list targetConfig) (bad : targetConfig) :
  Forall (fun target => rejected target = false) targets ->
  bad ∈ targets -> rejected bad = true -> False.
Proof.
  intros Hall Hin Hbad. rewrite Forall_forall in Hall.
  rewrite (Hall bad Hin) in Hbad. discriminate.
Qed.

(** X1: Validation in terms of the parser: it fails exactly when there is no
    target, or some target has no endpoint or an endpoint that
    [url.ParseRequestURI] refuses; the error
    is [errNoTargets] exactly for the empty list, [errMissingEndpoint] exactly
    when the first rejected target has no endpoint, and [errInvalidEndpoint]
    with the parser's error exactly when the first rejected target has an
    endpoint that the parser refuses; when validation succeeds an interval
    that is not positive has become 30 seconds and every target has the
    defaults "GET", "logs-receiver" and "info" where the field was empty. *)
Theorem Config_Validate_spec (cfg : Config) :
  let err := (Config_Validate cfg).1 in
  let cfg' := (Config_Validate cfg).2 in
  (err <> None <->
   Targets cfg = []
   \/ Exists (fun target =>
                Endpoint target = ""
                \/ url_ParseRequestURI (Endpoint target) <> None) (Targets cfg))
  /\ (err = Some errNoTargets <-> Targets cfg = [])
  /\ (err = Some errMissingEndpoint <->
      exists good bad rest,
        Targets cfg = good ++ bad :: rest
        /\ Forall (fun target => rejected target = false) good
        /\ Endpoint bad = "")
  /\ (forall parseErr,
        err = Some (errInvalidEndpoint parseErr) <->
        exists good bad rest,
          Targets cfg = good ++ bad :: rest
          /\ Forall (fun target => rejected target = false) good
          /\ Endpoint bad <> ""
          /\ url_ParseRequestURI (Endpoint bad) = Some parseErr)
  /\ (err = None ->
      CollectionInterval cfg'
      = (if decide (CollectionInterval cfg <= 0)%Z then (30 * Second)%Z
         else CollectionInterval cfg)
      /\ Targets cfg' = withDefaults <$> Targets cfg).
Proof.
  cbv zeta.
  destruct (Config_Validate_cases cfg)
    as [[Hnil ->] | [(Hne & Hall & ->) | (good & bad & rest & Heq & Hgood & Hbad & ->)]];
    cbn [fst snd].
  - (* no target *)
    split; [split; [intros _; left; exact Hnil | discriminate] |].
    split; [split; [intros _; exact Hnil | reflexivity] |].
    split; [split; [discriminate |] |].
    { intros (g & b & r & Hsplit & _). rewrite Hnil in Hsplit.
      destruct g; discriminate. }
    split; [| discriminate].
    intros parseErr. split; [discriminate |].
    intros (g & b & r & Hsplit & _). rewrite Hnil in Hsplit.
    destruct g; discriminate.
  - (* every target accepted *)
    split.
    { split; [intros Hc; contradiction |].
      intros [Hnil | Hex]; [contradiction |].
      apply Exists_exists in Hex as (bad & Hin & Hrej).
      exfalso. apply (accepted_not_in _ bad Hall Hin).
      apply rejected_true. exact Hrej. }
    split; [split; [discriminate | intros Hnil; contradiction] |].
    split.
    { split; [discriminate |].
      intros (g & b & r & Hsplit & _ & Hmissing). exfalso.
      apply (accepted_not_in _ b Hall).
      - rewrite Hsplit. apply elem_of_app. right. apply elem_of_cons. left.
        reflexivity.
      - apply rejected_true. left. exact Hmissing. }
    split.
    { intros parseErr. split; [discriminate |].
      intros (g & b & r & Hsplit & _ & _ & Hparse). exfalso.
      apply (accepted_not_in _ b Hall).
      - rewrite Hsplit. apply elem_of_app. right. apply elem_of_cons. left.
        reflexivity.
      - apply rejected_true. right. rewrite Hparse. discriminate. }
    intros _. split; reflexivity.
  - (* a first rejected target *)
    assert (Hunique : forall g b r,
              Targets cfg = g ++ b :: r ->
              Forall (fun target => rejected target = false) g ->
              rejected b = true -> b = bad).
    { intros g b r Hsplit Hg Hb. rewrite Heq in Hsplit. symmetry.
      exact (first_rejected_unique _ _ _ _ _ _ Hsplit Hgood Hg Hbad Hb). }
    assert (Hexists : Exists (fun target =>
                Endpoint target = ""
                \/ url_ParseRequestURI (Endpoint target) <> None) (Targets cfg)).
    { apply Exists_exists. exists bad. split.
      - rewrite Heq. apply elem_of_app. right. apply elem_of_cons. left.
        reflexivity.
      - apply rejected_true. exact Hbad. }
    assert (Hnonempty : Targets cfg <> []).
    { rewrite Heq. destruct good; discriminate. }
    destruct (targetConfig_Validate_rejected bad Hbad)
      as [[Hmissing ->] | (Hpresent & parseErr0 & Hparse & ->)]; cbn [fst].
    + split; [split; [intros _; right; exact Hexists | discriminate] |].
      split; [split; [discriminate | intros Hnil; contradiction] |].
      split.
      { split; [| reflexivity]. intros _. exists good, bad, rest.
        split; [exact Heq |]. split; [exact Hgood | exact Hmissing]. }
      split; [| discriminate].
      intros parseErr. split; [discriminate |].
      intros (g & b & r & Hsplit & Hg & Hb & Hp). exfalso.
      assert (b = bad) as ->.
      { apply (Hunique g b r Hsplit Hg). apply rejected_true. right.
        rewrite Hp. discriminate. }
      contradiction.
    + split; [split; [intros _; right; exact Hexists | discriminate] |].
      split; [split; [discriminate | intros Hnil; contradiction] |].
      split.
      { split; [discriminate |].
        intros (g & b & r & Hsplit & Hg & Hb). exfalso.
        assert (b = bad) as ->.
        { apply (Hunique g b r Hsplit Hg). apply rejected_true. left.
          exact Hb. }
        contradiction. }
      split; [| discriminate].
      intros parseErr. split.
      * intros Herr. injection Herr as <-. exists good, bad, rest.
        split; [exact Heq |]. split; [exact Hgood |].
        split; [exact Hpresent | exact Hparse].
      * intros (g & b & r & Hsplit & Hg & Hb & Hp).
        assert (b = bad) as ->.
        { apply (Hunique g b r Hsplit Hg). apply rejected_true. right.
          rewrite Hp. discriminate. }
        rewrite Hparse in Hp. injection Hp as ->. reflexivity.
Qed.

End ValidationSpec.

(** A configuration with a zero interval and one target that gives only its
    endpoint. *)
Lemma Config_Validate_spec_witness :
  (Config_Validate (H := libraryOf JNull errorResponse) exampleConfig).1 = None
  /\ CollectionInterval
       (Config_Validate (H := libraryOf JNull errorResponse) exampleConfig).2
     = 30000000000%Z
  /\ Targets
       (Config_Validate (H := libraryOf JNull errorResponse) exampleConfig).2
     = [ {| Endpoint := "https://api.example.com/logs";
            Method := "GET";
            Body := "";
            Headers := ∅;
            ServiceName := "logs-receiver";
            LogLevel := "info";
            Labels := ∅ |} ].
Proof.
  split; [reflexivity |].
  destruct (Config_Validate_spec (H := libraryOf JNull errorResponse)
              exampleConfig) as (_ & _ & _ & _ & Hvalid).
  destruct (Hvalid eq_refl) as [Hinterval Htargets].
  split; [rewrite Hinterval | rewrite Htargets]; reflexivity.
Defined.

(** C8, at an endpoint without scheme and host: the only test of the
    endpoint's form is [url.ParseRequestURI], so when that accepts the
    absolute path "/logs", as Go documents it does, the validation of a
    configuration whose only target has this endpoint returns no error and
    fills in the defaults, although the endpoint is not of the form
    scheme://host that the message of [errInvalidEndpoint] asks for. *)
Theorem Config_Validate_accepts_path `{Library} :
  url_ParseRequestURI "/logs" = None ->
  Config_Validate pathConfig
  = (None,
     {| CollectionInterval := (10 * Second)%Z;
        Targets := [ {| Endpoint := "/logs";
                        Method := "GET";
                        Body := "";
                        Headers := ∅;
                        ServiceName := "logs-receiver";
                        LogLevel := "info";
                        Labels := ∅ |} ] |}).
Proof.
  intros Hparse.
  assert (Htarget : targetConfig_Validate (bareTarget "/logs")
                    = (None, withDefaults (bareTarget "/logs"))).
  { apply targetConfig_Validate_accepted. unfold rejected.
    cbn [bareTarget Endpoint]. rewrite Hparse. reflexivity. }
  unfold Config_Validate, pathConfig.
  cbn [Targets length Nat.eqb CollectionInterval validateTargets].
  rewrite Htarget. reflexivity.
Qed.

Lemma Config_Validate_accepts_path_witness :
  Config_Validate (H := libraryOf JNull errorResponse) pathConfig
  = (None,
     {| CollectionInterval := 10000000000%Z;
        Targets := [ {| Endpoint := "/logs";
                        Method := "GET";
                        Body := "";
                        Headers := ∅;
                        ServiceName := "logs-receiver";
                        LogLevel := "info";
                        Labels := ∅ |} ] |}).
Proof.
  apply (Config_Validate_accepts_path (H := libraryOf JNull errorResponse)).
  reflexivity.
Defined.

(** ** The poll of one target *)

Section Poll.
Context `{Library}.

(** C9: when the response has a status code of 400 or more the poll returns
    the error that carries the code and the status text, and hands no batch
    to the consumer; when the status is below 400 and the parse gives no
    record the poll returns no error and hands no batch to the consumer,
    while a parse with records hands exactly that batch. *)
Theorem pollTarget_status_and_empty (target : targetConfig)
  (req : http.Request) (resp : http.Response) :
  createRequest target = Ok req ->
  http_Do req = Ok resp ->
  ((400 <= http.StatusCode resp)%Z ->
   pollTarget target
   = (Some (errHTTP (http.StatusCode resp) (http.Status resp)), []))
  /\ (forall body logs,
        (http.StatusCode resp < 400)%Z ->
        http.RespBody resp = Ok body ->
        parseLogs resp body target = Ok logs ->
        (plog.LogRecordCount logs = 0 -> pollTarget target = (None, []))
        /\ (0 < plog.LogRecordCount logs -> (pollTarget target).2 = [logs])).
Proof.
  intros Hreq Hdo. unfold pollTarget. rewrite Hreq, Hdo. split.
  - intros Hstatus.
    destruct (Z.leb_spec 400 (http.StatusCode resp)); [reflexivity | lia].
  - intros body logs Hstatus Hbody Hparse.
    destruct (Z.leb_spec 400 (http.StatusCode resp)); [lia |].
    rewrite Hbody, Hparse. split.
    + intros ->. reflexivity.
    + intros Hcount.
      destruct (Nat.ltb_spec 0 (plog.LogRecordCount logs)); [| lia].
      destruct (consumer_ConsumeLogs logs); reflexivity.
Qed.

End Poll.

(** A server that answers 500, and a server that answers blank text. *)
Lemma pollTarget_status_and_empty_witness :
  pollTarget (H := libraryOf JNull errorResponse) exampleTarget
  = (Some (errHTTP 500 "500 Internal Server Error"), [])
  /\ pollTarget (H := libraryOf JNull (textResponse blankText)) exampleTarget
     = (None, []).
Proof.
  split.
  - eapply (proj1 (pollTarget_status_and_empty
                     (H := libraryOf JNull errorResponse)
                     exampleTarget _ errorResponse eq_refl eq_refl)).
    vm_compute. discriminate.
  - destruct (pollTarget_status_and_empty
                (H := libraryOf JNull (textResponse blankText))
                exampleTarget _ (textResponse blankText) eq_refl eq_refl)
      as [_ Hempty].
    eapply (proj1 (Hempty blankText _ _ eq_refl eq_refl)).
    Unshelve.
    + vm_compute. reflexivity.
    + vm_compute. reflexivity.
Defined.

(** * Further properties of the code *)

(** ** Validation: what it leaves behind *)

Section ValidationState.
Context `{Library}.

Lemma withDefaults_idem (target : targetConfig) :
  withDefaults (withDefaults target) = withDefaults target.
Proof.
  unfold withDefaults. cbn [Endpoint Method Body Headers ServiceName LogLevel Labels].
  f_equal; repeat case_decide; try reflexivity; try discriminate; congruence.
Qed.

Lemma rejected_withDefaults (target : targetConfig) :
  rejected (withDefaults target) = rejected target.
Proof. reflexivity. Qed.

Lemma Config_Validate_success (cfg cfg' : Config) :
  Config_Validate cfg = (None, cfg') ->
  Targets cfg <> []
  /\ Forall (fun target => rejected target = false) (Targets cfg)
  /\ cfg' = {| CollectionInterval :=
                 if decide (CollectionInterval cfg <= 0)%Z then (30 * Second)%Z
                 else CollectionInterval cfg;
               Targets := withDefaults <$> Targets cfg |}.
Proof.
  intros Hok.
  destruct (Config_Validate_cases cfg)
    as [[_ Hc] | [(Hne & Hall & Hc) | (good & bad & rest & _ & _ & Hbad & Hc)]].
  - rewrite Hok in Hc. discriminate.
  - rewrite Hok in Hc. injection Hc as ->. split; [exact Hne |].
    split; [exact Hall | reflexivity].
  - rewrite Hok in Hc. cbn [fst] in Hc.
    destruct (targetConfig_Validate_rejected bad Hbad)
      as [[_ Hv] | (_ & parseErr & _ & Hv)]; rewrite Hv in Hc; discriminate.
Qed.

(** X2: Validating a configuration that has been validated changes nothing. *)
Theorem Config_Validate_idempotent (cfg cfg' : Config) :
  Config_Validate cfg = (None, cfg') ->
  Config_Validate cfg' = (None, cfg').
Proof.
  intros Hok. destruct (Config_Validate_success cfg cfg' Hok) as (Hne & Hall & ->).
  unfold Config_Validate. cbn [Targets CollectionInterval].
  rewrite length_fmap.
  destruct (Targets cfg) as [| target targets] eqn:Htargets; [contradiction |].
  cbn [length Nat.eqb].
  rewrite validateTargets_accepted.
  - rewrite <- list_fmap_compose.
    rewrite (list_fmap_ext (withDefaults ∘ withDefaults) withDefaults)
      by (intros; apply withDefaults_idem).
    f_equal. f_equal.
    case_decide as Hle.
    + reflexivity.
    + destruct (Z.leb_spec (CollectionInterval cfg) 0); [lia | reflexivity].
  - apply Forall_fmap. eapply Forall_impl; [exact Hall |].
    intros t Ht. exact Ht.
Qed.

(** X3: After a successful validation the interval is positive, the targets are
    as many as before, each with an endpoint that the parser accepts and with
    a method, a service name and a level that are not empty; endpoint, body,
    headers and labels are those of the input, and so is every method,
    service name and level that was not empty. *)
Theorem Config_Validate_valid_state (cfg cfg' : Config) :
  Config_Validate cfg = (None, cfg') ->
  (0 < CollectionInterval cfg')%Z
  /\ (0 < CollectionInterval cfg -> CollectionInterval cfg' = CollectionInterval cfg)%Z
  /\ Targets cfg' <> []
  /\ Forall (fun target =>
               Endpoint target <> ""
               /\ url_ParseRequestURI (Endpoint target) = None
               /\ Method target <> "" /\ ServiceName target <> ""
               /\ LogLevel target <> "") (Targets cfg')
  /\ Forall2 (fun target target' =>
                Endpoint target' = Endpoint target
                /\ Body target' = Body target
                /\ Headers target' = Headers target
                /\ Labels target' = Labels target
                /\ (Method target <> "" -> Method target' = Method target)
                /\ (ServiceName target <> "" ->
                    ServiceName target' = ServiceName target)
                /\ (LogLevel target <> "" -> LogLevel target' = LogLevel target))
             (Targets cfg) (Targets cfg').
Proof.
  intros Hok. destruct (Config_Validate_success cfg cfg' Hok) as (Hne & Hall & ->).
  clear Hok. cbn [CollectionInterval Targets].
  split; [case_decide; [unfold Second |]; lia |].
  split; [intros Hpos; rewrite decide_False by lia; reflexivity |].
  split; [destruct (Targets cfg); [contradiction | discriminate] |].
  split.
  - apply Forall_fmap. eapply Forall_impl; [exact Hall |].
    intros target Hacc. cbn.
    assert (Hnot : ~ (Endpoint target = ""
                      \/ url_ParseRequestURI (Endpoint target) <> None)).
    { intros Hrej. apply rejected_true in Hrej. congruence. }
    split; [intros He; apply Hnot; left; exact He |].
    split.
    { destruct (url_ParseRequestURI (Endpoint target)) eqn:Hp; [| reflexivity].
      exfalso. apply Hnot. right. discriminate. }
    repeat split;
      (destruct (decide (_ = "")) as [Heq | Hneq]; [discriminate | exact Hneq]).
  - apply Forall2_fmap_r, Forall_Forall2_diag, Forall_forall.
    intros target _. cbn.
    repeat split; try reflexivity; intros Hset;
      rewrite decide_False by exact Hset; reflexivity.
Qed.

(** X4: When validation fails at a target, the interval has been coerced and the
    targets before the failing one have their defaults; the failing target
    and the targets after it are as they were. *)
Theorem Config_Validate_failure_state (cfg : Config)
  (good : list targetConfig) (bad : targetConfig) (rest : list targetConfig) :
  Targets cfg = good ++ bad :: rest ->
  Forall (fun target => rejected target = false) good ->
  rejected bad = true ->
  exists err,
    Config_Validate cfg
    = (Some err,
       {| CollectionInterval :=
            if decide (CollectionInterval cfg <= 0)%Z then (30 * Second)%Z
            else CollectionInterval cfg;
          Targets := (withDefaults <$> good) ++ bad :: rest |})
    /\ (err = errMissingEndpoint
        \/ exists parseErr, err = errInvalidEndpoint parseErr).
Proof.
  intros Heq Hgood Hbad. unfold Config_Validate. rewrite Heq.
  rewrite (validateTargets_first_rejected _ _ _ Hgood Hbad).
  replace (length (good ++ bad :: rest) =? 0)%nat with false
    by (destruct good; reflexivity).
  assert (Hinterval :
    (if (CollectionInterval cfg <=? 0)%Z then (30 * Second)%Z
     else CollectionInterval cfg)
    = (if decide (CollectionInterval cfg <= 0)%Z then (30 * Second)%Z
       else CollectionInterval cfg)).
  { destruct (Z.leb_spec (CollectionInterval cfg) 0).
    - rewrite decide_True by assumption. reflexivity.
    - rewrite decide_False by lia. reflexivity. }
  rewrite Hinterval.
  destruct (targetConfig_Validate_rejected bad Hbad)
    as [[_ ->] | (_ & parseErr & _ & ->)]; cbn [fst].
  - exists errMissingEndpoint. split; [reflexivity | left; reflexivity].
  - exists (errInvalidEndpoint parseErr). split; [reflexivity |].
    right. exists parseErr. reflexivity.
Qed.

(** X5: The configuration of the factory has no target, so validation refuses it;
    with targets that validation accepts it validates and keeps its interval
    of 30 seconds. *)
Theorem createDefaultConfig_validation (targets : list targetConfig) :
  Config_Validate createDefaultConfig = (Some errNoTargets, createDefaultConfig)
  /\ (targets <> [] ->
      Forall (fun target => rejected target = false) targets ->
      Config_Validate {| CollectionInterval := CollectionInterval createDefaultConfig;
                         Targets := targets |}
      = (None, {| CollectionInterval := 30000000000%Z;
                  Targets := withDefaults <$> targets |})).
Proof.
  split; [reflexivity |]. intros Hne Hall.
  unfold Config_Validate. cbn [Targets CollectionInterval createDefaultConfig].
  destruct targets as [| target targets]; [contradiction |]. cbn [length Nat.eqb].
  rewrite (validateTargets_accepted _ Hall). reflexivity.
Qed.

End ValidationState.

(** The configuration of the example, validated twice. *)
Lemma Config_Validate_idempotent_witness :
  Config_Validate (H := libraryOf JNull errorResponse)
    (Config_Validate (H := libraryOf JNull errorResponse) exampleConfig).2
  = (None, (Config_Validate (H := libraryOf JNull errorResponse) exampleConfig).2).
Proof.
  apply (Config_Validate_idempotent (H := libraryOf JNull errorResponse)
           exampleConfig).
  reflexivity.
Defined.

(** A zero interval, a target that gives only its endpoint and a target with
    every field set. *)
Lemma Config_Validate_valid_state_witness :
  CollectionInterval
    (Config_Validate (H := libraryOf JNull errorResponse) mixedConfig).2
  = 30000000000%Z
  /\ Targets (Config_Validate (H := libraryOf JNull errorResponse) mixedConfig).2
     = [ {| Endpoint := "https://api.example.com/logs";
            Method := "GET";
            Body := "";
            Headers := ∅;
            ServiceName := "logs-receiver";
            LogLevel := "info";
            Labels := ∅ |};
         fullTarget ]
  /\ (0 < CollectionInterval
            (Config_Validate (H := libraryOf JNull errorResponse) mixedConfig).2)%Z.
Proof.
  destruct (Config_Validate_valid_state (H := libraryOf JNull errorResponse)
              mixedConfig
              (Config_Validate (H := libraryOf JNull errorResponse) mixedConfig).2)
    as (Hpos & _).
  - reflexivity.
  - split; [reflexivity |]. split; [reflexivity | exact Hpos].
Defined.

(** A negative interval and a second target without endpoint. *)
Lemma Config_Validate_failure_state_witness :
  (Config_Validate (H := libraryOf JNull errorResponse) brokenConfig).1 <> None
  /\ (Config_Validate (H := libraryOf JNull errorResponse) brokenConfig).2
  = ({| CollectionInterval := 30000000000%Z;
        Targets := [ {| Endpoint := "https://api.example.com/logs";
                        Method := "GET";
                        Body := "";
                        Headers := ∅;
                        ServiceName := "logs-receiver";
                        LogLevel := "info";
                        Labels := ∅ |};
                     bareTarget "";
                     bareTarget "https://api.example.com/more" ] |}).
Proof.
  destruct (Config_Validate_failure_state (H := libraryOf JNull errorResponse)
              brokenConfig [bareTarget "https://api.example.com/logs"]
              (bareTarget "") [bareTarget "https://api.example.com/more"])
    as (err & Hstate & _).
  - reflexivity.
  - repeat constructor.
  - reflexivity.
  - rewrite Hstate. split; [discriminate | reflexivity].
Defined.

(** The default configuration with the fully set target of the example. *)
Lemma createDefaultConfig_validation_witness :
  Config_Validate (H := libraryOf JNull errorResponse)
    {| CollectionInterval := CollectionInterval createDefaultConfig;
       Targets := [fullTarget] |}
  = (None, {| CollectionInterval := 30000000000%Z; Targets := [fullTarget] |}).
Proof.
  apply (proj2 (createDefaultConfig_validation
                  (H := libraryOf JNull errorResponse) [fullTarget])).
  - discriminate.
  - repeat constructor.
Defined.

(** ** The dot-path extractor: paths and nodes *)

Lemma extractValueByPath_JArr (path : string) (els : list JSON) :
  extractValueByPath path (JArr els) =
  match aggregate path els with
  | [] => JNull
  | r :: rs => JArr (r :: rs)
  end.
Proof.
  rewrite extractValueByPath_eq. cbn [isNil orb].
  destruct (String.eqb_spec path "") as [-> | Hpath].
  - rewrite aggregate_nil_path. reflexivity.
  - cbv zeta. rewrite extractLoop_aggregate. cbn [app].
    destruct (aggregate path els); reflexivity.
Qed.

Lemma splice_extract_JArr (path : string) (els : list JSON) :
  splice (extractValueByPath path (JArr els)) = aggregate path els.
Proof.
  rewrite extractValueByPath_JArr. destruct (aggregate path els); reflexivity.
Qed.

Lemma aggregate_app (path : string) (l1 l2 : list JSON) :
  aggregate path (l1 ++ l2) = aggregate path l1 ++ aggregate path l2.
Proof. unfold aggregate. rewrite map_app, concat_app. reflexivity. Qed.

Lemma aggregate_nested (path : string) (ls : list (list JSON)) :
  aggregate path (JArr <$> ls) = aggregate path (concat ls).
Proof.
  induction ls as [| l ls IH]; [reflexivity |].
  cbn [fmap list_fmap concat]. rewrite aggregate_app, <- IH.
  unfold aggregate at 1. cbn [map concat]. rewrite splice_extract_JArr.
  reflexivity.
Qed.

Lemma Cut_not_empty (path head tail : string) :
  strings.Cut "." path = Some (head, tail) -> path <> "".
Proof. intros Hcut ->. discriminate. Qed.

(** X6: A path of segments that leads through mappings to a value extracts that
    value, whatever it is: a scalar, a mapping, a sequence or null; the
    attribute of a label with this path is the rendering of the value, or
    "NOT FOUND" for null. *)
Theorem extract_through_mappings `{Library} (keys : list string)
  (data v : JSON) :
  keys <> [] ->
  forallb isSegment keys = true ->
  select (Field <$> keys) data = Some v ->
  extractValueByPath (dotPath keys) data = v
  /\ labelAttribute (dotPath keys) data
     = VStr (match v with JNull => "NOT FOUND" | _ => fmt_Sprint v end).
Proof.
  intros Hne Hseg Hsel.
  pose proof (extractValueByPath_select keys data v Hne Hseg Hsel) as Hv.
  split; [exact Hv |]. unfold labelAttribute. rewrite Hv.
  destruct v; reflexivity.
Qed.

(** X7: A path of segments that leads through mappings to a mapping without the
    next segment extracts null, whatever follows in the path, and the
    attribute of a label with this path is "NOT FOUND". *)
Theorem extract_missing_key `{Library} (keys : list string) (key : string)
  (rest : list string) (data : JSON) (fields : gmap string JSON) :
  forallb isSegment (keys ++ key :: rest) = true ->
  select (Field <$> keys) data = Some (JObj fields) ->
  fields !! key = None ->
  extractValueByPath (dotPath (keys ++ key :: rest)) data = JNull
  /\ labelAttribute (dotPath (keys ++ key :: rest)) data = VStr "NOT FOUND".
Proof.
  intros Hseg Hsel Habs.
  pose proof (extractValueByPath_absent keys key rest data fields Hseg Hsel Habs)
    as Hnull.
  split; [exact Hnull |]. unfold labelAttribute. rewrite Hnull. reflexivity.
Qed.

(** X8: A path with a dot is split at its first dot, so on a mapping only the
    field named by the text before that dot is looked up: without that field
    the result is null, also when the mapping has a field named by the whole
    path. *)
Theorem extract_dotted_key (path head tail : string)
  (fields : gmap string JSON) :
  strings.Cut "." path = Some (head, tail) ->
  fields !! head = None ->
  extractValueByPath path (JObj fields) = JNull.
Proof.
  intros Hcut Hhead. rewrite extractValueByPath_eq. cbn [isNil orb].
  rewrite (eqb_false _ (Cut_not_empty _ _ _ Hcut)).
  unfold pathHead, strings.SplitN2. rewrite Hcut, Hhead. reflexivity.
Qed.

(** X9: On a mapping, a path made of a key without dot, a dot and a rest that is
    not empty extracts the rest from the field of that key: the first step of
    a path does not depend on what the field holds. *)
Theorem extract_step (key rest : string) (fields : gmap string JSON)
  (child : JSON) :
  strings.Cut "." key = None ->
  rest <> "" ->
  fields !! key = Some child ->
  extractValueByPath (key +:+ String "." rest) (JObj fields)
  = extractValueByPath rest child.
Proof.
  intros Hkey Hrest Hchild. rewrite extractValueByPath_eq. cbn [isNil orb].
  pose proof (Cut_segment key rest Hkey) as Hcut.
  rewrite (eqb_false _ (Cut_not_empty _ _ _ Hcut)).
  unfold pathHead, pathTail, strings.SplitN2. rewrite Hcut, Hchild.
  rewrite (eqb_false _ Hrest). reflexivity.
Qed.

(** X10: On a mapping, a dot at the end of a one-key path changes nothing: the
    path extracts the field of the key, or null without the field. *)
Theorem extract_trailing_dot (key : string) (fields : gmap string JSON) :
  isSegment key = true ->
  extractValueByPath (key +:+ ".") (JObj fields)
  = extractValueByPath key (JObj fields)
  /\ extractValueByPath key (JObj fields)
     = match fields !! key with Some child => child | None => JNull end.
Proof.
  intros [Hne Hcut]%isSegment_spec.
  assert (Hplain : extractValueByPath key (JObj fields)
                   = match fields !! key with Some child => child | None => JNull end).
  { rewrite extractValueByPath_eq. cbn [isNil orb]. rewrite (eqb_false _ Hne).
    destruct (pathHead_single key Hcut) as [Hh Ht]. unfold dotPath in Hh, Ht.
    cbn [String.concat] in Hh, Ht. rewrite Hh, Ht. reflexivity. }
  split; [| exact Hplain]. rewrite Hplain.
  rewrite extractValueByPath_eq. cbn [isNil orb].
  pose proof (Cut_segment key "" Hcut) as Hdot.
  rewrite (eqb_false _ (Cut_not_empty _ _ _ Hdot)).
  unfold pathHead, pathTail, strings.SplitN2. rewrite Hdot. reflexivity.
Qed.

(** X11: Sequences inside a sequence are flattened: extracting from a sequence of
    sequences is extracting from their concatenation, and the members found
    in a concatenation are those of the first part followed by those of the
    second. *)
Theorem extract_nested_sequences (path : string) :
  (forall ls : list (list JSON),
     extractValueByPath path (JArr (JArr <$> ls))
     = extractValueByPath path (JArr (concat ls)))
  /\ (forall l1 l2 : list JSON,
        splice (extractValueByPath path (JArr (l1 ++ l2)))
        = splice (extractValueByPath path (JArr l1))
          ++ splice (extractValueByPath path (JArr l2))).
Proof.
  split.
  - intros ls. rewrite !extractValueByPath_JArr, aggregate_nested. reflexivity.
  - intros l1 l2. rewrite !splice_extract_JArr. apply aggregate_app.
Qed.

(** X12: By kind of node: a string, a number or a boolean gives null for every
    path; a sequence gives null or a sequence that is not empty, never the
    empty sequence; only a mapping can give an empty sequence, when the field
    reached holds one. *)
Theorem extract_by_node (path : string) :
  (forall s, extractValueByPath path (JStr s) = JNull)
  /\ (forall f, extractValueByPath path (JNum f) = JNull)
  /\ (forall b, extractValueByPath path (JBool b) = JNull)
  /\ (forall els,
        extractValueByPath path (JArr els) = JNull
        \/ exists r rs, extractValueByPath path (JArr els) = JArr (r :: rs))
  /\ (forall fields key,
        isSegment key = true -> fields !! key = Some (JArr []) ->
        extractValueByPath key (JObj fields) = JArr []).
Proof.
  split; [| split; [| split; [| split]]].
  - intros s. rewrite extractValueByPath_eq. cbn.
    destruct (String.eqb path ""); reflexivity.
  - intros f. rewrite extractValueByPath_eq. cbn.
    destruct (String.eqb path ""); reflexivity.
  - intros b. rewrite extractValueByPath_eq. cbn.
    destruct (String.eqb path ""); reflexivity.
  - intros els. rewrite extractValueByPath_JArr.
    destruct (aggregate path els) as [| r rs]; [left | right; exists r, rs];
      reflexivity.
  - intros fields key Hkey Hfield.
    apply (extractValueByPath_select [key] (JObj fields) (JArr [])).
    + discriminate.
    + cbn [forallb]. rewrite Hkey. reflexivity.
    + cbn. rewrite Hfield. reflexivity.
Qed.

(** The path "c.d" of the example leads to the string "x". *)
Lemma extract_through_mappings_witness :
  extractValueByPath "c.d" dottedKeyPayload = JStr "x"
  /\ labelAttribute (H := libraryOf JNull errorResponse) "c.d" dottedKeyPayload
     = VStr "x".
Proof.
  apply (extract_through_mappings (H := libraryOf JNull errorResponse)
           ["c"; "d"] dottedKeyPayload (JStr "x")).
  - discriminate.
  - vm_compute. reflexivity.
  - vm_compute. reflexivity.
Defined.

(** The mapping under "c" has no field "zz". *)
Lemma extract_missing_key_witness :
  extractValueByPath "c.zz.q" dottedKeyPayload = JNull
  /\ labelAttribute (H := libraryOf JNull errorResponse) "c.zz.q"
       dottedKeyPayload = VStr "NOT FOUND".
Proof.
  apply (extract_missing_key (H := libraryOf JNull errorResponse)
           ["c"] "zz" ["q"] dottedKeyPayload {[ "d" := JStr "x" ]}).
  - vm_compute. reflexivity.
  - vm_compute. reflexivity.
  - vm_compute. reflexivity.
Defined.

(** The example has a field named "a.b" and no field named "a". *)
Lemma extract_dotted_key_witness :
  select [Field "a.b"] dottedKeyPayload = Some (JStr "dotted")
  /\ extractValueByPath "a.b" dottedKeyPayload = JNull.
Proof.
  split; [vm_compute; reflexivity |].
  apply (extract_dotted_key "a.b" "a" "b").
  - reflexivity.
  - vm_compute. reflexivity.
Defined.

(** The path of the test on nested sequences, one step at a time. *)
Lemma extract_step_witness :
  extractValueByPath "outer.inner.value" nestedPayload
  = JArr [JStr "a"; JStr "b"; JStr "c"].
Proof.
  etransitivity.
  - apply (extract_step "outer" "inner.value").
    + reflexivity.
    + discriminate.
    + vm_compute. reflexivity.
  - vm_compute. reflexivity.
Defined.

Lemma extract_trailing_dot_witness :
  extractValueByPath "c." dottedKeyPayload = JObj {[ "d" := JStr "x" ]}.
Proof.
  destruct (extract_trailing_dot "c"
              {[ "a.b" := JStr "dotted"; "c" := JObj {[ "d" := JStr "x" ]} ]})
    as [Hdot Hplain].
  - reflexivity.
  - etransitivity; [exact Hdot |]. etransitivity; [exact Hplain |].
    vm_compute. reflexivity.
Defined.

Lemma extract_by_node_witness :
  extractValueByPath "tags" (JObj {[ "tags" := JArr [] ]}) = JArr [].
Proof.
  apply (proj2 (proj2 (proj2 (proj2 (extract_by_node "tags"))))).
  - reflexivity.
  - vm_compute. reflexivity.
Defined.

(** ** The structural body: shape *)

Lemma setBodyValue_not_empty (data : JSON) : setBodyValue data <> VEmpty.
Proof. destruct data; discriminate. Qed.

(** X13: The body has a value exactly at the positions of the payload, and no
    position of the body holds the empty value. *)
Theorem body_positions (pos : list step) (data : JSON) :
  (is_Some (selectValue pos (setBodyValue data)) <-> is_Some (select pos data))
  /\ selectValue pos (setBodyValue data) <> Some VEmpty.
Proof.
  rewrite selectValue_setBodyValue. split.
  - rewrite fmap_is_Some. reflexivity.
  - destruct (select pos data) as [v |]; [| discriminate].
    cbn. intros Hv. injection Hv as Hv. exact (setBodyValue_not_empty v Hv).
Qed.

(** X14: In the body a null cannot be told from the string "null": a mapping with
    a null field and the mapping with the string "null" in that field convert
    to the same body, and so do two sequences that differ in this way at one
    index. *)
Theorem body_null_conflation :
  (forall (fields : gmap string JSON) (key : string),
     setBodyValue (JObj (<[key := JNull]> fields))
     = setBodyValue (JObj (<[key := JStr "null"]> fields)))
  /\ (forall l1 l2 : list JSON,
        setBodyValue (JArr (l1 ++ JNull :: l2))
        = setBodyValue (JArr (l1 ++ JStr "null" :: l2))).
Proof.
  split.
  - intros fields key. cbn [setBodyValue]. rewrite !fmap_insert. reflexivity.
  - intros l1 l2. cbn [setBodyValue]. rewrite !map_app. reflexivity.
Qed.

(** ** The parser: failure, resource and records *)

Section ParserShape.
Context `{Library}.

(** X15: [parseLogs] fails exactly when the content type contains
    "application/json" and the body does not decode, and the error is the
    decoder's, wrapped; a response without Content-Type header is parsed as
    text and never fails. *)
Theorem parseLogs_failure (resp : http.Response) (body : string)
  (target : targetConfig) :
  (forall err,
     parseLogs resp body target = Err err <->
     strings.Contains
       (strings_ToLower (http.HeaderGet (http.Header resp) "Content-Type"))
       "application/json" = true
     /\ exists decodeErr,
          json_Unmarshal body = Err decodeErr
          /\ err = errWrap "failed to unmarshal JSON" decodeErr)
  /\ (http.Header resp !! "Content-Type" = None ->
      parseLogs resp body target = parseTextLogs body target plog.NewLogs
      /\ exists logs, parseLogs resp body target = Ok logs).
Proof.
  split.
  - intros err. rewrite parseLogs_dispatch.
    destruct (strings.Contains _ "application/json").
    + unfold parseJSONLogs. destruct (json_Unmarshal body) as [data | decodeErr].
      * split; [discriminate |]. intros (_ & e & He & _). discriminate.
      * split.
        -- intros Herr. injection Herr as <-. split; [reflexivity |].
           exists decodeErr. split; reflexivity.
        -- intros (_ & e & He & ->). injection He as ->. reflexivity.
    + split; [discriminate |]. intros [Hc _]. discriminate.
  - intros Hmissing. rewrite parseLogs_dispatch. unfold http.HeaderGet.
    change (textproto.CanonicalMIMEHeaderKey "Content-Type") with "Content-Type".
    rewrite Hmissing, (strings_ToLower_ascii "" eq_refl).
    change (strings.Contains (strings.ToLowerASCII "") "application/json")
      with false.
    split; [reflexivity |].
    destruct (parseTextLogs_records body target) as (logs & Hlogs & _).
    exists logs. exact Hlogs.
Qed.

(** X16: The batch of a successful parse is one resource with one scope. In the
    JSON branch the resource has the attributes "endpoint" and "service.name"
    and no other; in the text branch it has these and every label, and a
    label named "endpoint" or "service.name" replaces the target's value. *)
Theorem parseLogs_resource (resp : http.Response) (body : string)
  (target : targetConfig) (logs : plog.Logs) :
  parseLogs resp body target = Ok logs ->
  exists attributes records,
    plog.ResourceLogsSlice logs
    = [ {| plog.ResourceAttributes := attributes;
           plog.ScopeLogsSlice := [ {| plog.LogRecords := records |} ] |} ]
    /\ forall key,
         attributes !! key
         = if strings.Contains
                (strings_ToLower
                   (http.HeaderGet (http.Header resp) "Content-Type"))
                "application/json"
           then
             if decide (key = "service.name") then Some (VStr (ServiceName target))
             else if decide (key = "endpoint") then Some (VStr (Endpoint target))
             else None
           else
             match Labels target !! key with
             | Some value => Some (VStr value)
             | None =>
                 if decide (key = "service.name")
                 then Some (VStr (ServiceName target))
                 else if decide (key = "endpoint")
                      then Some (VStr (Endpoint target))
                      else None
             end.
Proof.
  rewrite parseLogs_dispatch.
  destruct (strings.Contains _ "application/json").
  - unfold parseJSONLogs. destruct (json_Unmarshal body) as [data |];
      [| discriminate].
    intros Hlogs. injection Hlogs as <-. cbn [plog.ResourceLogsSlice plog.NewLogs app].
    destruct (addLogRecord {| plog.LogRecords := [] |} data target)
      as [records] eqn:Hadd.
    eexists _, records. split; [reflexivity |]. intros key.
    rewrite lookup_insert. case_decide as Hs.
    + subst key. rewrite decide_True by reflexivity. reflexivity.
    + rewrite decide_False by congruence.
      rewrite lookup_insert. case_decide as He.
      * subst key. rewrite decide_True by reflexivity. reflexivity.
      * rewrite decide_False by congruence. apply lookup_empty.
  - unfold parseTextLogs. intros Hlogs. injection Hlogs as <-.
    cbn [plog.ResourceLogsSlice plog.NewLogs app].
    eexists _, _. split; [reflexivity |]. intros key.
    rewrite (range_put_lookup VStr).
    destruct (Labels target !! key); [reflexivity |].
    rewrite lookup_insert. case_decide as He.
    + subst key. rewrite decide_False by discriminate.
      rewrite decide_True by reflexivity. reflexivity.
    + rewrite (decide_False (P := key = "endpoint")) by congruence.
      rewrite lookup_insert. case_decide as Hs.
      * subst key. rewrite decide_True by reflexivity. reflexivity.
      * rewrite decide_False by congruence. apply lookup_empty.
Qed.

(** X17: Every record of a batch has the severity of the target's level and the
    level in upper case as severity text, whatever the payload. *)
Theorem parseLogs_severity (resp : http.Response) (body : string)
  (target : targetConfig) (logs : plog.Logs) (record : plog.LogRecord) :
  parseLogs resp body target = Ok logs ->
  record ∈ plog.allRecords logs ->
  plog.SeverityText record = strings_ToUpper (LogLevel target)
  /\ plog.Severity record = getSeverityNumber (LogLevel target).
Proof.
  rewrite parseLogs_dispatch.
  destruct (strings.Contains _ "application/json").
  - unfold parseJSONLogs. destruct (json_Unmarshal body) as [data |];
      [| discriminate].
    intros Hlogs. injection Hlogs as <-. unfold plog.allRecords.
    cbn -[addLogRecord].
    destruct (addLogRecord_last {| plog.LogRecords := [] |} data target)
      as (r & -> & _ & Htext & Hsev & _).
    cbn. rewrite list_elem_of_singleton. intros ->. split; assumption.
  - intros Hlogs.
    destruct (parseTextLogs_records body target) as (logs' & Hlogs' & Hrecords).
    rewrite Hlogs' in Hlogs. injection Hlogs as <-. rewrite Hrecords.
    intros (line & -> & _)%list_elem_of_fmap. split; reflexivity.
Qed.

(** X18: In the JSON branch the record has one attribute for every label of the
    target and no other: the rendering of the extracted value, or "NOT FOUND"
    when the extraction gives null. The records of the text branch have no
    attribute. *)
Theorem parseLogs_attributes (resp : http.Response) (body : string)
  (target : targetConfig) (logs : plog.Logs) (record : plog.LogRecord) :
  parseLogs resp body target = Ok logs ->
  record ∈ plog.allRecords logs ->
  if strings.Contains
       (strings_ToLower (http.HeaderGet (http.Header resp) "Content-Type"))
       "application/json"
  then
    exists data,
      json_Unmarshal body = Ok data
      /\ dom (plog.Attributes record) = dom (Labels target)
      /\ forall key path,
           Labels target !! key = Some path ->
           plog.Attributes record !! key
           = Some (VStr (match extractValueByPath path data with
                         | JNull => "NOT FOUND"
                         | v => fmt_Sprint v
                         end))
  else plog.Attributes record = ∅.
Proof.
  rewrite parseLogs_dispatch.
  destruct (strings.Contains _ "application/json").
  - intros Hlogs Hin. destruct (json_Unmarshal body) as [data | e] eqn:Hdata.
    + destruct (parseJSONLogs_record body target data Hdata)
        as (logs' & r & Hlogs' & Hrecords & _ & Hattrs).
      rewrite Hlogs' in Hlogs. injection Hlogs as <-.
      rewrite Hrecords in Hin. apply list_elem_of_singleton in Hin as ->.
      exists data. split; [reflexivity |]. split.
      * apply set_eq. intros key. rewrite !elem_of_dom, Hattrs, fmap_is_Some.
        reflexivity.
      * intros key path Hlabel. rewrite Hattrs, Hlabel. cbn.
        unfold labelAttribute.
        destruct (extractValueByPath path data); reflexivity.
    + unfold parseJSONLogs in Hlogs. rewrite Hdata in Hlogs. discriminate.
  - intros Hlogs.
    destruct (parseTextLogs_records body target) as (logs' & Hlogs' & Hrecords).
    rewrite Hlogs' in Hlogs. injection Hlogs as <-. rewrite Hrecords.
    intros (line & -> & _)%list_elem_of_fmap. reflexivity.
Qed.

End ParserShape.

(** ** The text branch: lines *)

Lemma Split_not_nil (sep : ascii) (s : string) : strings.Split sep s <> [].
Proof.
  induction s as [| c s IH]; [discriminate |]. cbn [strings.Split].
  destruct (Ascii.eqb c sep); [discriminate |].
  destruct (strings.Split sep s); [contradiction | discriminate].
Qed.

Lemma Split_join (sep : ascii) (a b : string) :
  strings.Split sep (a +:+ String sep b)
  = strings.Split sep a ++ strings.Split sep b.
Proof.
  induction a as [| c a IH].
  - change ("" +:+ String sep b) with (String sep b). cbn [strings.Split].
    rewrite Ascii.eqb_refl. reflexivity.
  - change (String c a +:+ String sep b) with (String c (a +:+ String sep b)).
    cbn [strings.Split]. rewrite IH.
    destruct (Ascii.eqb c sep); [reflexivity |].
    pose proof (Split_not_nil sep a) as Hne.
    destruct (strings.Split sep a) as [| line rest]; [contradiction |].
    reflexivity.
Qed.

Section TextLines.
Context `{Library}.

(** X19: The records of two bodies joined by a newline are the records of the
    first followed by the records of the second. *)
Theorem parseTextLogs_join (body1 body2 : string) (target : targetConfig) :
  survivingLines (body1 +:+ newline +:+ body2)
  = survivingLines body1 ++ survivingLines body2
  /\ exists logs1 logs2 logs,
       parseTextLogs body1 target plog.NewLogs = Ok logs1
       /\ parseTextLogs body2 target plog.NewLogs = Ok logs2
       /\ parseTextLogs (body1 +:+ newline +:+ body2) target plog.NewLogs = Ok logs
       /\ plog.allRecords logs = plog.allRecords logs1 ++ plog.allRecords logs2.
Proof.
  assert (Hjoin : survivingLines (body1 +:+ newline +:+ body2)
                  = survivingLines body1 ++ survivingLines body2).
  { unfold survivingLines.
    change (body1 +:+ newline +:+ body2)
      with (body1 +:+ String (ascii_of_nat 10) body2).
    rewrite Split_join, fmap_app, filter_app. reflexivity. }
  split; [exact Hjoin |].
  destruct (parseTextLogs_records body1 target) as (logs1 & H1 & R1).
  destruct (parseTextLogs_records body2 target) as (logs2 & H2 & R2).
  destruct (parseTextLogs_records (body1 +:+ newline +:+ body2) target)
    as (logs & H3 & R3).
  exists logs1, logs2, logs. split; [exact H1 |]. split; [exact H2 |].
  split; [exact H3 |]. rewrite R1, R2, R3, Hjoin, fmap_app. reflexivity.
Qed.

(** X20: The text branch gives at most one record per line of the body; the body
    of every record is a line of the body, trimmed, and is not empty; there is
    no record exactly when every line trims to the empty string. *)
Theorem parseTextLogs_bounds (body : string) (target : targetConfig)
  (logs : plog.Logs) :
  parseTextLogs body target plog.NewLogs = Ok logs ->
  plog.LogRecordCount logs <= length (strings.Split (ascii_of_nat 10) body)
  /\ Forall (fun record =>
               exists raw,
                 raw ∈ strings.Split (ascii_of_nat 10) body
                 /\ plog.Body record = VStr (strings_TrimSpace raw)
                 /\ strings_TrimSpace raw <> "")
            (plog.allRecords logs)
  /\ (plog.LogRecordCount logs = 0 <->
      Forall (fun raw => strings_TrimSpace raw = "")
             (strings.Split (ascii_of_nat 10) body)).
Proof.
  intros Hlogs.
  destruct (parseTextLogs_records body target) as (logs' & Hlogs' & Hrecords).
  rewrite Hlogs' in Hlogs. injection Hlogs as <-.
  unfold plog.LogRecordCount. rewrite Hrecords, length_fmap.
  unfold survivingLines.
  set (lines := strings.Split (ascii_of_nat 10) body).
  split; [| split].
  - etransitivity; [apply length_filter |]. rewrite length_fmap. reflexivity.
  - apply Forall_fmap, Forall_forall. intros line Hin.
    apply list_elem_of_filter in Hin as [Hne Hin].
    apply list_elem_of_fmap in Hin as (raw & -> & Hraw).
    exists raw. split; [exact Hraw |]. split; [reflexivity | exact Hne].
  - rewrite length_zero_iff_nil. split.
    + intros Hnil. apply Forall_forall. intros raw Hraw.
      destruct (decide (strings_TrimSpace raw = "")) as [Ht | Ht]; [exact Ht |].
      exfalso.
      assert (Hin : strings_TrimSpace raw
                    ∈ filter (fun line : string => line <> "")
                             (strings_TrimSpace <$> lines)).
      { apply list_elem_of_filter. split; [exact Ht |].
        apply list_elem_of_fmap. exists raw. split; [reflexivity | exact Hraw]. }
      rewrite Hnil in Hin. inversion Hin.
    + intros Hall. induction Hall as [| raw raws Hraw _ IH]; [reflexivity |].
      cbn [fmap list_fmap]. rewrite filter_cons.
      rewrite decide_False by (intros Hne; apply Hne, Hraw). exact IH.
Qed.

End TextLines.

(** ** The poll of one target: outcomes *)

Section PollOutcomes.
Context `{Library}.

(** X21: A poll hands at most one batch to the consumer. A batch that it hands has
    at least one record and is the parse of a response with a status below
    400 whose body could be read. *)
Theorem pollTarget_delivery (target : targetConfig) :
  length (pollTarget target).2 <= 1
  /\ forall logs,
       logs ∈ (pollTarget target).2 ->
       (pollTarget target).2 = [logs]
       /\ 0 < plog.LogRecordCount logs
       /\ exists req resp body,
            createRequest target = Ok req
            /\ http_Do req = Ok resp
            /\ (http.StatusCode resp < 400)%Z
            /\ http.RespBody resp = Ok body
            /\ parseLogs resp body target = Ok logs.
Proof.
  unfold pollTarget.
  destruct (createRequest target) as [req | e1] eqn:Hreq;
    [| split; [cbn; lia | intros logs Hin; inversion Hin]].
  destruct (http_Do req) as [resp | e2] eqn:Hdo;
    [| split; [cbn; lia | intros logs Hin; inversion Hin]].
  destruct (Z.leb_spec 400 (http.StatusCode resp)) as [Hs | Hs];
    [split; [cbn; lia | intros logs Hin; inversion Hin] |].
  destruct (http.RespBody resp) as [body | e3] eqn:Hbody;
    [| split; [cbn; lia | intros logs Hin; inversion Hin]].
  destruct (parseLogs resp body target) as [logs0 | e4] eqn:Hparse;
    [| split; [cbn; lia | intros logs Hin; inversion Hin]].
  destruct (Nat.ltb_spec 0 (plog.LogRecordCount logs0)) as [Hc | Hc];
    [| split; [cbn; lia | intros logs Hin; inversion Hin]].
  assert (Hdelivered :
    (match consumer_ConsumeLogs logs0 with
     | Some err => (Some (errWrap "failed to consume logs" err), [logs0])
     | None => (None, [logs0])
     end).2 = [logs0]).
  { destruct (consumer_ConsumeLogs logs0); reflexivity. }
  rewrite Hdelivered. split; [cbn; lia |].
  intros logs Hin. apply list_elem_of_singleton in Hin as ->.
  split; [reflexivity |]. split; [exact Hc |].
  exists req, resp, body. split; [reflexivity |]. split; [exact Hdo |].
  split; [exact Hs |]. split; [exact Hbody | exact Hparse].
Qed.

(** X22: A poll returns no error exactly when the request was built and answered
    with a status below 400, the body was read and parsed, and the batch was
    empty or the consumer took it. *)
Theorem pollTarget_success (target : targetConfig) :
  (pollTarget target).1 = None <->
  exists req resp body logs,
    createRequest target = Ok req
    /\ http_Do req = Ok resp
    /\ (http.StatusCode resp < 400)%Z
    /\ http.RespBody resp = Ok body
    /\ parseLogs resp body target = Ok logs
    /\ (plog.LogRecordCount logs = 0 \/ consumer_ConsumeLogs logs = None).
Proof.
  unfold pollTarget. split.
  - destruct (createRequest target) as [req | e1] eqn:Hreq; [| discriminate].
    destruct (http_Do req) as [resp | e2] eqn:Hdo; [| discriminate].
    destruct (Z.leb_spec 400 (http.StatusCode resp)) as [Hs | Hs];
      [discriminate |].
    destruct (http.RespBody resp) as [body | e3] eqn:Hbody; [| discriminate].
    destruct (parseLogs resp body target) as [logs | e4] eqn:Hparse;
      [| discriminate].
    intros Hok. exists req, resp, body, logs.
    split; [reflexivity |]. split; [exact Hdo |]. split; [exact Hs |].
    split; [exact Hbody |]. split; [exact Hparse |].
    destruct (Nat.ltb_spec 0 (plog.LogRecordCount logs)) as [Hc | Hc];
      [| left; lia].
    destruct (consumer_ConsumeLogs logs); [discriminate | right; reflexivity].
  - intros (req & resp & body & logs & -> & -> & Hs & -> & -> & Hend).
    destruct (Z.leb_spec 400 (http.StatusCode resp)); [lia |].
    destruct (Nat.ltb_spec 0 (plog.LogRecordCount logs)) as [Hc | Hc];
      [| reflexivity].
    destruct Hend as [Hzero | ->]; [lia | reflexivity].
Qed.

(** X23: A body that does not decode, under a JSON content type, makes the poll
    return the decoder's error, wrapped twice, and hand nothing to the
    consumer. *)
Theorem pollTarget_invalid_json (target : targetConfig) (req : http.Request)
  (resp : http.Response) (body : string) (decodeErr : error) :
  createRequest target = Ok req ->
  http_Do req = Ok resp ->
  (http.StatusCode resp < 400)%Z ->
  http.RespBody resp = Ok body ->
  strings.Contains
    (strings_ToLower (http.HeaderGet (http.Header resp) "Content-Type"))
    "application/json" = true ->
  json_Unmarshal body = Err decodeErr ->
  pollTarget target
  = (Some (errWrap "failed to parse logs"
             (errWrap "failed to unmarshal JSON" decodeErr)), []).
Proof.
  intros Hreq Hdo Hs Hbody Hct Hdecode. unfold pollTarget.
  rewrite Hreq, Hdo, Hbody.
  destruct (Z.leb_spec 400 (http.StatusCode resp)); [lia |].
  rewrite parseLogs_dispatch, Hct. unfold parseJSONLogs. rewrite Hdecode.
  reflexivity.
Qed.

(** X24: A body that decodes, under a JSON content type and a status below 400, is
    always handed to the consumer, as one batch of one record, whatever the
    payload; the poll returns the consumer's error, wrapped, or none. *)
Theorem pollTarget_json_delivers (target : targetConfig) (req : http.Request)
  (resp : http.Response) (body : string) (data : JSON) :
  createRequest target = Ok req ->
  http_Do req = Ok resp ->
  (http.StatusCode resp < 400)%Z ->
  http.RespBody resp = Ok body ->
  strings.Contains
    (strings_ToLower (http.HeaderGet (http.Header resp) "Content-Type"))
    "application/json" = true ->
  json_Unmarshal body = Ok data ->
  exists logs,
    parseLogs resp body target = Ok logs
    /\ plog.LogRecordCount logs = 1
    /\ pollTarget target
       = (errWrap "failed to consume logs" <$> consumer_ConsumeLogs logs, [logs]).
Proof.
  intros Hreq Hdo Hs Hbody Hct Hdecode.
  destruct (parseJSONLogs_record body target data Hdecode)
    as (logs & record & Hlogs & Hrecords & _).
  assert (Hparse : parseLogs resp body target = Ok logs).
  { rewrite parseLogs_dispatch, Hct. exact Hlogs. }
  assert (Hcount : plog.LogRecordCount logs = 1).
  { unfold plog.LogRecordCount. rewrite Hrecords. reflexivity. }
  exists logs. split; [exact Hparse |]. split; [exact Hcount |].
  unfold pollTarget. rewrite Hreq, Hdo, Hbody, Hparse, Hcount.
  destruct (Z.leb_spec 400 (http.StatusCode resp)); [lia |].
  cbn [Nat.ltb Nat.leb]. destruct (consumer_ConsumeLogs logs); reflexivity.
Qed.

(** X25: Whenever a poll returns an error that is not the consumer's, nothing was
    handed to the consumer; with the consumer's error the batch was handed. *)
Theorem pollTarget_error_delivery (target : targetConfig) (err : error) :
  (pollTarget target).1 = Some err ->
  ((forall e, err <> errWrap "failed to consume logs" e) ->
   (pollTarget target).2 = [])
  /\ (forall e, err = errWrap "failed to consume logs" e ->
      exists logs,
        (pollTarget target).2 = [logs] /\ consumer_ConsumeLogs logs = Some e).
Proof.
  unfold pollTarget.
  destruct (createRequest target) as [req | e1].
  2: { intros Herr. injection Herr as <-.
       split; [reflexivity | intros e He; discriminate]. }
  destruct (http_Do req) as [resp | e2].
  2: { intros Herr. injection Herr as <-.
       split; [reflexivity | intros e He; discriminate]. }
  destruct (Z.leb_spec 400 (http.StatusCode resp)) as [Hs | Hs].
  { intros Herr. injection Herr as <-.
    split; [reflexivity | intros e He; discriminate]. }
  destruct (http.RespBody resp) as [body | e3].
  2: { intros Herr. injection Herr as <-.
       split; [reflexivity | intros e He; discriminate]. }
  destruct (parseLogs resp body target) as [logs | e4].
  2: { intros Herr. injection Herr as <-.
       split; [reflexivity | intros e He; discriminate]. }
  destruct (Nat.ltb_spec 0 (plog.LogRecordCount logs)); [| discriminate].
  destruct (consumer_ConsumeLogs logs) as [e5 |] eqn:Hconsume; [| discriminate].
  intros Herr. injection Herr as <-. split.
  - intros Hnot. exfalso. exact (Hnot e5 eq_refl).
  - intros e He. injection He as <-. exists logs. split; [reflexivity | exact Hconsume].
Qed.

End PollOutcomes.

(** ** The request builder: headers *)

Section RequestHeaders.
Context `{Library}.

Lemma createRequest_header_cases (target : targetConfig) (req : http.Request) :
  createRequest target = Ok req ->
  http.ReqMethod req
  = (if decide (Method target = "") then "GET" else Method target)
  /\ http.ReqURL req = Endpoint target
  /\ (http.ReqHeader req = setHeaders target
      \/ (Body target <> ""
          /\ http.HeaderGet (setHeaders target) "Content-Type" = ""
          /\ exists ct,
               http.ReqHeader req
               = http.HeaderSet "Content-Type" ct (setHeaders target))).
Proof.
  unfold createRequest.
  destruct (http_NewRequestError (Method target) (Endpoint target));
    [discriminate |].
  intros Hreq. injection Hreq as <-. cbn [http.ReqMethod http.ReqURL http.ReqHeader].
  split; [apply eqb_decide |]. split; [reflexivity |].
  destruct (String.eqb_spec (Body target) "") as [Hb | Hb]; cbn [negb andb].
  { left. reflexivity. }
  destruct (String.eqb_spec (http.HeaderGet (setHeaders target) "Content-Type") "")
    as [Hg | Hg].
  - right. split; [exact Hb |]. split; [exact Hg |].
    destruct (strings.HasPrefix _ "{"); eexists; reflexivity.
  - left. reflexivity.
Qed.



End RequestHeaders.


(** ** Runs of the parser and of the poll *)

(** A response without headers is parsed as text, also when its body looks
    like JSON and the decoder would refuse it. *)
Lemma parseLogs_failure_witness :
  exists logs,
    parseLogs (H := failingLibrary (bareResponse "{")) (bareResponse "{") "{"
      exampleTarget = Ok logs.
Proof.
  apply (proj2 (parseLogs_failure (H := failingLibrary (bareResponse "{"))
                  (bareResponse "{") "{" exampleTarget)).
  reflexivity.
Defined.

(** In the text branch the label "endpoint" replaces the endpoint of the
    target among the attributes of the resource. *)
Lemma parseLogs_resource_witness :
  exists logs attributes records,
    parseLogs (H := libraryOf JNull (textResponse exampleText))
      (textResponse exampleText) exampleText labelledTarget = Ok logs
    /\ plog.ResourceLogsSlice logs
       = [ {| plog.ResourceAttributes := attributes;
              plog.ScopeLogsSlice := [ {| plog.LogRecords := records |} ] |} ]
    /\ attributes !! "endpoint" = Some (VStr "override")
    /\ attributes !! "env" = Some (VStr "prod")
    /\ attributes !! "service.name" = Some (VStr "text-service").
Proof.
  destruct (parseLogs_resource (H := libraryOf JNull (textResponse exampleText))
              (textResponse exampleText) exampleText labelledTarget _ eq_refl)
    as (attributes & records & Hshape & Hattrs).
  eexists _, attributes, records. split; [reflexivity |].
  split; [exact Hshape |].
  rewrite !Hattrs. vm_compute. repeat split; reflexivity.
Defined.

(** The records of the text of the example, for a target of level "info". *)
Lemma parseLogs_severity_witness :
  plog.SeverityText
    (textRecord (H := libraryOf JNull (textResponse exampleText))
       exampleTarget "alpha") = "INFO"
  /\ plog.Severity
       (textRecord (H := libraryOf JNull (textResponse exampleText))
          exampleTarget "alpha") = plog.SeverityNumberInfo.
Proof.
  eapply (parseLogs_severity (H := libraryOf JNull (textResponse exampleText))
            (textResponse exampleText) exampleText exampleTarget _
            (textRecord (H := libraryOf JNull (textResponse exampleText))
               exampleTarget "alpha")).
  - reflexivity.
  - vm_compute. apply list_elem_of_here.
Defined.

(** The attributes of the record of the two users of the example. *)
Lemma parseLogs_attributes_witness :
  exists record,
    plog.allRecords
      (match parseLogs (H := libraryOf exampleUsers (jsonResponse "users"))
               (jsonResponse "users") "users" exampleTarget with
       | Ok logs => logs
       | Err _ => plog.NewLogs
       end) = [record]
    /\ plog.Attributes record !! "companies" = Some (VStr "[A B]")
    /\ plog.Attributes record !! "missing_field" = Some (VStr "NOT FOUND")
    /\ dom (plog.Attributes record) = {[ "companies"; "missing_field" ]}.
Proof.
  eexists. split; [vm_compute; reflexivity |].
  pose proof (parseLogs_attributes
                (H := libraryOf exampleUsers (jsonResponse "users"))
                (jsonResponse "users") "users" exampleTarget _ _ eq_refl
                (list_elem_of_here _ _)) as Hattrs.
  change (strings.Contains _ "application/json") with true in Hattrs.
  cbv iota in Hattrs. destruct Hattrs as (data & Hdata & Hdom & Hlabels).
  injection Hdata as <-.
  split; [| split].
  - etransitivity; [apply (Hlabels "companies" "company.name") |];
      vm_compute; reflexivity.
  - etransitivity; [apply (Hlabels "missing_field" "does.not.exist") |];
      vm_compute; reflexivity.
  - etransitivity; [exact Hdom |]. vm_compute. reflexivity.
Defined.

(** The text of the example has four lines and gives three records. *)
Lemma parseTextLogs_bounds_witness :
  exists logs,
    parseTextLogs (H := libraryOf JNull (textResponse exampleText))
      exampleText exampleTarget plog.NewLogs = Ok logs
    /\ plog.LogRecordCount logs <= 4.
Proof.
  eexists. split; [reflexivity |].
  apply (proj1 (parseTextLogs_bounds
                  (H := libraryOf JNull (textResponse exampleText))
                  exampleText exampleTarget _ eq_refl)).
Defined.

(** The two users of the example, polled: one batch of one record. *)
Lemma pollTarget_delivery_witness :
  exists logs,
    (pollTarget (H := libraryOf exampleUsers (jsonResponse "users"))
       exampleTarget).2 = [logs]
    /\ 0 < plog.LogRecordCount logs.
Proof.
  eexists.
  destruct (proj2 (pollTarget_delivery
                     (H := libraryOf exampleUsers (jsonResponse "users"))
                     exampleTarget) _ (list_elem_of_here _ _))
    as (Hbatch & Hcount & _).
  split; [exact Hbatch | exact Hcount].
Defined.

(** The body "{" of the test on invalid JSON. *)
Lemma pollTarget_invalid_json_witness :
  pollTarget (H := failingLibrary (jsonResponse "{")) exampleTarget
  = (Some (errWrap "failed to parse logs"
             (errWrap "failed to unmarshal JSON"
                (errExternal "unexpected end of JSON input"))), []).
Proof.
  eapply (pollTarget_invalid_json (H := failingLibrary (jsonResponse "{"))
            exampleTarget _ (jsonResponse "{") "{").
  - reflexivity.
  - reflexivity.
  - reflexivity.
  - reflexivity.
  - vm_compute. reflexivity.
  - reflexivity.
Defined.

(** A payload that is null is polled and handed on like any other. *)
Lemma pollTarget_json_delivers_witness :
  exists logs,
    plog.LogRecordCount logs = 1
    /\ pollTarget (H := libraryOf JNull (jsonResponse "null")) exampleTarget
       = (None, [logs]).
Proof.
  destruct (pollTarget_json_delivers
              (H := libraryOf JNull (jsonResponse "null"))
              exampleTarget _ (jsonResponse "null") "null" JNull
              eq_refl eq_refl eq_refl eq_refl)
    as (logs & _ & Hcount & Hpoll).
  - vm_compute. reflexivity.
  - reflexivity.
  - exists logs. split; [exact Hcount | exact Hpoll].
Defined.

(** A server that answers 500: the error is not the consumer's. *)
Lemma pollTarget_error_delivery_witness :
  (pollTarget (H := libraryOf JNull errorResponse) exampleTarget).2 = [].
Proof.
  eapply (proj1 (pollTarget_error_delivery
                   (H := libraryOf JNull errorResponse) exampleTarget _ eq_refl)).
  intros e He. discriminate.
Defined.

(** ** Validation and the poll together *)

Section ValidatedTargets.
Context `{Library}.

(** X27: The defaults that validation fills in are what the poll uses: for a
    target of a validated configuration that gave no method the request has
    the method "GET", and for one that gave no level every record has the
    severity text "INFO" and the severity info. *)
Theorem validated_defaults_in_poll (cfg cfg' : Config) (target : targetConfig) :
  Config_Validate cfg = (None, cfg') ->
  target ∈ Targets cfg ->
  withDefaults target ∈ Targets cfg'
  /\ (forall req,
        Method target = "" ->
        createRequest (withDefaults target) = Ok req ->
        http.ReqMethod req = "GET")
  /\ (forall resp body logs record,
        LogLevel target = "" ->
        parseLogs resp body (withDefaults target) = Ok logs ->
        record ∈ plog.allRecords logs ->
        plog.SeverityText record = "INFO"
        /\ plog.Severity record = plog.SeverityNumberInfo).
Proof.
  intros Hok Hin.
  destruct (Config_Validate_success cfg cfg' Hok) as (_ & _ & ->).
  cbn [Targets]. split; [apply list_elem_of_fmap; exists target; split;
                         [reflexivity | exact Hin] |].
  split.
  - intros req Hmethod Hreq.
    destruct (createRequest_header_cases _ _ Hreq) as (-> & _).
    unfold withDefaults. cbn [Method]. rewrite (decide_True (P := Method target = ""))
      by exact Hmethod.
    reflexivity.
  - intros resp body logs record Hlevel.
    assert (Hdefault : LogLevel (withDefaults target) = "info").
    { unfold withDefaults. cbn [LogLevel]. rewrite decide_True by exact Hlevel.
      reflexivity. }
    assert (Hupper : strings_ToUpper "info" = "INFO")
      by (rewrite strings_ToUpper_ascii by reflexivity; reflexivity).
    assert (Hinfo : getSeverityNumber "info" = plog.SeverityNumberInfo)
      by (rewrite getSeverityNumber_ascii by reflexivity; reflexivity).
    rewrite parseLogs_dispatch.
    destruct (strings.Contains _ "application/json").
    + unfold parseJSONLogs. destruct (json_Unmarshal body) as [data |];
        [| discriminate].
      intros Hlogs. injection Hlogs as <-. unfold plog.allRecords.
      cbn -[addLogRecord withDefaults].
      destruct (addLogRecord_last {| plog.LogRecords := [] |} data
                  (withDefaults target)) as (r & -> & _ & Htext & Hsev & _).
      cbn -[withDefaults]. rewrite list_elem_of_singleton. intros ->.
      rewrite Htext, Hsev, Hdefault. split; [exact Hupper | exact Hinfo].
    + intros Hlogs.
      destruct (parseTextLogs_records body (withDefaults target))
        as (logs' & Hlogs' & Hrecords).
      rewrite Hlogs' in Hlogs. injection Hlogs as <-. rewrite Hrecords.
      intros (line & -> & _)%list_elem_of_fmap.
      unfold textRecord. cbn -[withDefaults getSeverityNumber]. rewrite Hdefault.
      split; [exact Hupper | exact Hinfo].
Qed.

End ValidatedTargets.

(** The target of the example that gives only its endpoint. *)
Lemma validated_defaults_in_poll_witness :
  exists req,
    createRequest (H := libraryOf JNull errorResponse)
      (withDefaults (bareTarget "https://api.example.com/logs")) = Ok req
    /\ http.ReqMethod req = "GET".
Proof.
  eexists. split; [reflexivity |].
  refine (proj1 (proj2 (validated_defaults_in_poll
                          (H := libraryOf JNull errorResponse)
                          exampleConfig _
                          (bareTarget "https://api.example.com/logs")
                          eq_refl (list_elem_of_here _ _))) _ eq_refl eq_refl).
Defined.
